(** * Octant: the namespaces manager and the plugin dashboard client

    A shallow embedding of two Go files of the Octant dashboard:

    - [internal/api] : [NamespacesManager], its poll closure [runUpdate],
      the default generator [NamespacesGenerator] and
      [CreateNamespacesEvent];
    - [pkg/plugin/api] : the dashboard service [Client] with its
      [List], [Get], [Update], [PortForward], [CancelPortForward] and
      [ForceFrontendUpdate] methods.

    Go values are embedded as follows.  A Go [string] is a [string] (a
    sequence of bytes), a [[]byte] is a [list byte], a [[]string] is a
    [strings] (nil or a list), an [error] is [option error] with [None]
    for [nil], a multiple return is a tuple, [uint16] and [uint32] are
    [Z] reduced modulo the width, an interface is a record of its
    methods, a Go map with string keys is a [gmap string _].  Effects
    (the client sink, the logger, the closure variable [previous], the
    remote side of the gRPC connection) are threaded as explicit
    state. *)

From Stdlib Require Import ZArith List String Ascii Lia Bool.
From Stdlib.Strings Require Import Byte.
From stdpp Require Import base option gmap strings list.

Open Scope Z_scope.

(** ** Go primitives *)

Module Go.

(** [[]byte]. The nil slice and the empty slice both have length zero
    and are equal for [bytes.Compare]; they are one value here. *)
Definition bytes := list byte.

(** [[]string]: a nil slice is told apart from an empty one, because
    [encoding/json] serialises them differently. *)
Inductive strings : Type :=
| nil_strings
| mk_strings (elems : list string).

(** An [error] value: [errors.New], [errors.Wrap] of github.com/pkg/errors. *)
Inductive error : Type :=
| errors_New (msg : string)
| errors_Wrap (cause : error) (msg : string).

(** [err.Error()] *)
Fixpoint Error (e : error) : string :=
  match e with
  | errors_New msg => msg
  | errors_Wrap cause msg => msg ++ ": " ++ Error cause
  end.

(** A logger entry: [logger.WithErr(err).Errorf(msg)] carries the error,
    [logger.Errorf(msg)] does not. *)
Record LogEntry : Type := mkLogEntry {
  entry_err : option error;
  entry_msg : string
}.

Definition uint16 (x : Z) : Z := x mod 2 ^ 16.
Definition uint32 (x : Z) : Z := x mod 2 ^ 32.

Definition byte_val (b : byte) : Z := Z.of_N (Byte.to_N b).

(** [bytes.Compare(a, b)]: -1, 0 or +1 by lexicographic order. *)
Fixpoint bytes_Compare (a b : bytes) : Z :=
  match a, b with
  | [], [] => 0
  | [], _ :: _ => -1
  | _ :: _, [] => 1
  | x :: a', y :: b' =>
      if byte_val x <? byte_val y then -1
      else if byte_val y <? byte_val x then 1
      else bytes_Compare a' b'
  end.

End Go.

(** ** unicode/utf8 and encoding/json on [[]string]

    [json.Marshal] belongs to the Go standard library (Go 1.13 is the
    version the repository builds with).  The part used by the manager,
    the encoding of a [[]string], is written out: [null] for a nil
    slice, otherwise the bracketed, comma-separated list of the quoted
    strings, each escaped as [encodeState.string] does with HTML
    escaping on. *)

Module utf8.

Import Go.

Definition RuneSelf : Z := 128.
Definition RuneError : Z := 65533.

Definition locb : Z := 128.
Definition hicb : Z := 191.

(** The entries of the [first] table for a leading byte at or above
    [RuneSelf]: the length of the sequence and the range accepted for
    its second byte; [None] for the bytes that start no sequence. *)
Definition first (s0 : Z) : option (nat * Z * Z) :=
  if s0 <? 194 then None
  else if s0 <? 224 then Some (2%nat, locb, hicb)
  else if s0 =? 224 then Some (3%nat, 160, hicb)
  else if s0 <? 237 then Some (3%nat, locb, hicb)
  else if s0 =? 237 then Some (3%nat, locb, 159)
  else if s0 <? 240 then Some (3%nat, locb, hicb)
  else if s0 =? 240 then Some (4%nat, 144, hicb)
  else if s0 <? 244 then Some (4%nat, locb, hicb)
  else if s0 =? 244 then Some (4%nat, locb, 143)
  else None.

Definition cont (b : Z) : bool := (locb <=? b) && (b <=? hicb).

(** [utf8.DecodeRuneInString]: the rune and the number of bytes it takes. *)
Definition DecodeRuneInString (s : list byte) : Z * nat :=
  match s with
  | [] => (RuneError, 0%nat)
  | b0 :: t =>
      let s0 := byte_val b0 in
      if s0 <? RuneSelf then (s0, 1%nat)
      else
        match first s0 with
        | None => (RuneError, 1%nat)
        | Some (sz, lo, hi) =>
            match t with
            | [] => (RuneError, 1%nat)
            | b1 :: t1 =>
                let s1 := byte_val b1 in
                if (s1 <? lo) || (hi <? s1) then (RuneError, 1%nat)
                else if (sz <=? 2)%nat then
                  (Z.lor (Z.shiftl (Z.land s0 31) 6) (Z.land s1 63), 2%nat)
                else
                  match t1 with
                  | [] => (RuneError, 1%nat)
                  | b2 :: t2 =>
                      let s2 := byte_val b2 in
                      if negb (cont s2) then (RuneError, 1%nat)
                      else if (sz <=? 3)%nat then
                        (Z.lor (Z.lor (Z.shiftl (Z.land s0 15) 12)
                                      (Z.shiftl (Z.land s1 63) 6))
                               (Z.land s2 63), 3%nat)
                      else
                        match t2 with
                        | [] => (RuneError, 1%nat)
                        | b3 :: _ =>
                            let s3 := byte_val b3 in
                            if negb (cont s3) then (RuneError, 1%nat)
                            else
                              (Z.lor (Z.lor (Z.lor (Z.shiftl (Z.land s0 7) 18)
                                                   (Z.shiftl (Z.land s1 63) 12))
                                            (Z.shiftl (Z.land s2 63) 6))
                                     (Z.land s3 63), 4%nat)
                        end
                  end
            end
        end
  end.

End utf8.

Module json.

Import Go.

Definition quote : byte := x22.
Definition backslash : byte := x5c.

Definition hex (n : Z) : byte :=
  nth (Z.to_nat n) (list_byte_of_string "0123456789abcdef") "0"%byte.

(** [htmlSafeSet]: the ASCII bytes written without escaping. *)
Definition htmlSafeSet (b : Z) : bool :=
  (32 <=? b) && (b <? 128)
  && negb ((b =? 34) || (b =? 38) || (b =? 60) || (b =? 62) || (b =? 92)).

(** The escape written for an ASCII byte outside [htmlSafeSet]. *)
Definition escape_ascii (b : byte) : bytes :=
  let v := byte_val b in
  if (v =? 92) || (v =? 34) then [backslash; b]
  else if v =? 10 then [backslash; "n"%byte]
  else if v =? 13 then [backslash; "r"%byte]
  else if v =? 9 then [backslash; "t"%byte]
  else backslash :: list_byte_of_string "u00"
         ++ [hex (Z.shiftr v 4); hex (Z.land v 15)].

(** The loop of [encodeState.string] over the bytes of the string.
    [skip] counts the bytes of the multi-byte rune decoded last that are
    still to be passed; [keep] tells whether they are copied (a rune
    written as it is) or left out (a rune written as an escape). *)
Fixpoint encode_bytes (skip : nat) (keep : bool) (s : list byte) : bytes :=
  match s with
  | [] => []
  | b :: rest =>
      match skip with
      | S k => (if keep then [b] else []) ++ encode_bytes k keep rest
      | O =>
          let v := byte_val b in
          if v <? utf8.RuneSelf then
            (if htmlSafeSet v then [b] else escape_ascii b)
              ++ encode_bytes 0 true rest
          else
            let '(c, size) := utf8.DecodeRuneInString s in
            if (c =? utf8.RuneError) && (size =? 1)%nat then
              backslash :: list_byte_of_string "ufffd"
                ++ encode_bytes 0 true rest
            else if (c =? 8232) || (c =? 8233) then
              backslash :: list_byte_of_string "u202" ++ [hex (Z.land c 15)]
                ++ encode_bytes (size - 1) false rest
            else
              b :: encode_bytes (size - 1) true rest
      end
  end.

(** [encodeState.string(s, true)] *)
Definition encode_string (s : string) : bytes :=
  quote :: encode_bytes 0 true (list_byte_of_string s) ++ [quote].

(** The elements of an array, separated by commas. *)
Fixpoint encode_elems (l : list string) : bytes :=
  match l with
  | [] => []
  | [s] => encode_string s
  | s :: l' => encode_string s ++ ","%byte :: encode_elems l'
  end.

(** [json.Marshal(v)] for [v] of type [[]string]. *)
Definition Marshal (v : strings) : bytes * option error :=
  match v with
  | nil_strings => (list_byte_of_string "null", None)
  | mk_strings l => ("["%byte :: encode_elems l ++ ["]"%byte], None)
  end.

End json.

(** ** context.Context

    The interface is used through [Err] only.  A value of the carrier
    stands for the context as one poll cycle (or one client call)
    observes it; whatever the called code reads through it (the
    generator's view of the cluster, the cancellation status) is a
    function of that value. *)

Class context_Context (C : Type) : Type := {
  Err : C -> option Go.error
}.

(** ** internal/octant: events *)

Module octant.

Definition EventType : Type := string.

(** Modelled from the spec: the constant [octant.EventTypeNamespaces] is
    declared in internal/octant, which is not among the sources; the
    event pushed to the sink is given there as
    [{type: "namespaces", data: {namespaces: [string,...]}}]. *)
Definition EventTypeNamespaces : EventType := "namespaces".

(** The [interface{}] values stored in the data of an event. *)
Inductive any : Type :=
| any_strings (v : Go.strings).

Record Event : Type := mkEvent {
  Event_Type : EventType;
  Event_Data : gmap string any
}.

End octant.

(** ** internal/cluster: the interfaces the default generator calls

    A method without argument is the outcome of its call.  Interface
    values are non-nil here (a call on a nil interface panics); when a
    call fails, the value returned next to the error is not looked at
    by the callers below. *)

Module cluster.

Record NamespaceInterface : Type := mkNamespaceInterface {
  Names : Go.strings * option Go.error;
  InitialNamespace : string
}.

Record ClientInterface : Type := mkClientInterface {
  NamespaceClient : NamespaceInterface * option Go.error
}.

End cluster.

(** ** internal/api: the namespaces manager *)

Module api.

Import Go.

(** [NamespaceManagerConfig] *)
Record NamespaceManagerConfig : Type := mkNamespaceManagerConfig {
  ClusterClient : cluster.ClientInterface
}.

(** [CreateNamespacesEvent] *)
Definition CreateNamespacesEvent (namespaces : strings) : octant.Event :=
  {| octant.Event_Type := octant.EventTypeNamespaces;
     octant.Event_Data := {[ "namespaces"%string := octant.any_strings namespaces ]} |}.

(** The list carried by a namespaces event. *)
Definition event_namespaces (ev : octant.Event) : strings :=
  match octant.Event_Data ev !! "namespaces"%string with
  | Some (octant.any_strings v) => v
  | None => nil_strings
  end.

(** What the closure returned by [runUpdate] works on: its captured
    variable [previous], the events the [OctantClient] sink has been
    sent (oldest first) and the entries written to the logger. *)
Record State : Type := mkState {
  previous : bytes;
  sent : list octant.Event;
  logged : list LogEntry
}.

(** [client.Send(ev)] *)
Definition Send (ev : octant.Event) (st : State) : State :=
  mkState (previous st) (sent st ++ [ev]) (logged st).

(** [logger.WithErr(err).Errorf(msg)] *)
Definition Errorf (err : option error) (msg : string) (st : State) : State :=
  mkState (previous st) (sent st) (logged st ++ [mkLogEntry err msg]).

(** [previous = cur] *)
Definition set_previous (cur : bytes) (st : State) : State :=
  mkState cur (sent st) (logged st).

(** The state in which [runUpdate] leaves a new closure: [var previous
    []byte] is nil, nothing has been sent or logged. *)
Definition initial : State := mkState [] [] [].

(** [NamespacesGenerator] *)
Definition NamespacesGenerator {C : Type} (_ : C)
    (config : option NamespaceManagerConfig) : strings * option error :=
  match config with
  | None => (nil_strings, Some (errors_New "namespaces manager config is nil"))
  | Some config =>
      let clusterClient := ClusterClient config in
      let '(namespaceClient, err) := cluster.NamespaceClient clusterClient in
      match err with
      | Some err => (nil_strings, Some (errors_Wrap err "retrieve namespaces client"))
      | None =>
          let '(names, err) := cluster.Names namespaceClient in
          let names :=
            match err with
            | Some _ =>
                let initialNamespace := cluster.InitialNamespace namespaceClient in
                mk_strings [initialNamespace]
            | None => names
            end in
          (names, None)
      end
  end.

Section Manager.

Context {C : Type} `{context_Context C}.

(** [json.Marshal] at [[]string]; [json.Marshal] above is the one the
    program runs with. *)
Variable Marshal : strings -> bytes * option error.

(** [NamespacesGenerateFunc] *)
Definition NamespacesGenerateFunc : Type :=
  C -> option NamespaceManagerConfig -> strings * option error.

(** [NamespacesManager]: its [poller] field only schedules the calls of
    the closure and is left out. *)
Record NamespacesManager : Type := mkNamespacesManager {
  config : option NamespaceManagerConfig;
  namespacesGeneratorFunc : NamespacesGenerateFunc
}.

(** [NewNamespacesManager(config)] without options, and with
    [WithNamespacesGenerator(fn)]. *)
Definition NewNamespacesManager (config : option NamespaceManagerConfig)
  : NamespacesManager :=
  mkNamespacesManager config NamespacesGenerator.

Definition WithNamespacesGenerator (fn : NamespacesGenerateFunc)
    (n : NamespacesManager) : NamespacesManager :=
  mkNamespacesManager (config n) fn.

(** [PollerFunc] *)
Definition PollerFunc : Type := C -> State -> bool * State.

(** The closure returned by [runUpdate]. *)
Definition runUpdate (n : NamespacesManager) : PollerFunc :=
  fun ctx st =>
    let '(namespaces, err) := namespacesGeneratorFunc n ctx (config n) in
    match err with
    | Some err => (false, Errorf (Some err) "load namespaces" st)
    | None =>
        match Err ctx with
        | None =>
            let '(cur, err) := Marshal namespaces in
            match err with
            | Some err =>
                (false, Errorf (Some err) "unable to marshal namespaces" st)
            | None =>
                if negb (bytes_Compare (previous st) cur =? 0) then
                  (false, Send (CreateNamespacesEvent namespaces)
                               (set_previous cur st))
                else (false, st)
            end
        | Some _ => (false, st)
        end
    end.

(** The closure called once per cycle, on the contexts of the
    successive cycles. *)
Fixpoint cycles (f : PollerFunc) (ctxs : list C) (st : State) : State :=
  match ctxs with
  | [] => st
  | ctx :: ctxs' => cycles f ctxs' (snd (f ctx st))
  end.

(** The serialization pushed last: that of the list carried by the
    newest event of the sink, empty while nothing has been pushed. *)
Definition last_pushed (st : State) : bytes :=
  match last (sent st) with
  | Some ev => fst (Marshal (event_namespaces ev))
  | None => []
  end.

(** The baseline is the serialization pushed last. *)
Definition baseline_ok (st : State) : Prop :=
  previous st = last_pushed st.

(** The generator returns an error in this cycle. *)
Definition generator_failed (n : NamespacesManager) (ctx : C) : bool :=
  match snd (namespacesGeneratorFunc n ctx (config n)) with
  | Some _ => true
  | None => false
  end.

(** [NamespacesManagerOption]: an option acts on the manager under
    construction. *)
Definition NamespacesManagerOption : Type :=
  NamespacesManager -> NamespacesManager.

(** [NewNamespacesManager(config, options...)]: the options are applied
    in their order to the manager with the default generator. *)
Definition NewNamespacesManagerWith (config : option NamespaceManagerConfig)
    (options : list NamespacesManagerOption) : NamespacesManager :=
  fold_left (fun n option => option n) options (NewNamespacesManager config).

(** The serialization of the list an event carries. *)
Definition serialization (ev : octant.Event) : bytes :=
  fst (Marshal (event_namespaces ev)).

(** The cycle reaches the comparison step: the generator returns no
    error and the context is not done. *)
Definition reaches_comparison (n : NamespacesManager) (ctx : C) : bool :=
  negb (generator_failed n ctx)
  && match Err ctx with
     | None => true
     | Some _ => false
     end.

(** The entry the closure logs in a cycle for the error of the
    generator. *)
Definition generator_entries (n : NamespacesManager) (ctx : C)
  : list LogEntry :=
  match snd (namespacesGeneratorFunc n ctx (config n)) with
  | Some err => [mkLogEntry (Some err) "load namespaces"]
  | None => []
  end.

End Manager.

End api.

(** ** pkg/plugin/api/proto: the messages and the generated stub

    The messages keep the fields the client reads or writes.  The type
    of a key request and of an object on the wire are left open.  A
    method of the stub is a remote call: it runs on the state [S] of the
    remote side and returns its response next to its error. *)

Module proto.

Record PortForwardRequest : Type := mkPortForwardRequest {
  Namespace : string;
  PodName : string;
  PortNumber : Z
}.

Record PortForwardResponse : Type := mkPortForwardResponse {
  PortForwardID : string;
  resp_PortNumber : Z
}.

Record CancelPortForwardRequest : Type := mkCancelPortForwardRequest {
  cancel_PortForwardID : string
}.

Record UpdateRequest (WireObject : Type) : Type := mkUpdateRequest {
  req_Object : WireObject
}.

Record GetResponse (WireObject : Type) : Type := mkGetResponse {
  Object : WireObject
}.

Record ListResponse (WireObject : Type) : Type := mkListResponse {
  Objects : list WireObject
}.

Inductive Empty : Type := mkEmpty.

Record DashboardClient (C KeyRequest WireObject S : Type) : Type :=
  mkDashboardClient {
  List : C -> KeyRequest -> S ->
         (ListResponse WireObject * option Go.error) * S;
  Get : C -> KeyRequest -> S ->
        (GetResponse WireObject * option Go.error) * S;
  Update : C -> UpdateRequest WireObject -> S ->
           (Empty * option Go.error) * S;
  PortForward : C -> PortForwardRequest -> S ->
                (PortForwardResponse * option Go.error) * S;
  CancelPortForward : C -> CancelPortForwardRequest -> S ->
                      (Empty * option Go.error) * S;
  ForceFrontendUpdate : C -> Empty -> S -> (Empty * option Go.error) * S
}.

Arguments mkUpdateRequest {WireObject} _.
Arguments req_Object {WireObject} _.
Arguments mkGetResponse {WireObject} _.
Arguments Object {WireObject} _.
Arguments mkListResponse {WireObject} _.
Arguments Objects {WireObject} _.
Arguments mkDashboardClient {C KeyRequest WireObject S} _ _ _ _ _ _.
Arguments List {C KeyRequest WireObject S} _ _ _ _.
Arguments Get {C KeyRequest WireObject S} _ _ _ _.
Arguments Update {C KeyRequest WireObject S} _ _ _ _.
Arguments PortForward {C KeyRequest WireObject S} _ _ _ _.
Arguments CancelPortForward {C KeyRequest WireObject S} _ _ _ _.
Arguments ForceFrontendUpdate {C KeyRequest WireObject S} _ _ _ _.

End proto.

(** ** pkg/plugin/api: the dashboard client *)

Module pluginapi.

Import Go.

(** Modelled from the spec: the structs [PortForwardRequest] and
    [PortForwardResponse] are declared in a file of the package that is
    not among the sources.  A request is [{namespace, podName, port}],
    a response the session id and the local port; the ports are 16-bit
    values ([uint16], see [wf_PortForwardRequest]). *)
Record PortForwardRequest : Type := mkPortForwardRequest {
  Namespace : string;
  PodName : string;
  Port : Z
}.

Record PortForwardResponse : Type := mkPortForwardResponse {
  ID : string;
  resp_Port : Z
}.

(** The values a [PortForwardRequest] can hold. *)
Definition wf_PortForwardRequest (req : PortForwardRequest) : Prop :=
  0 <= Port req < 2 ^ 16.

(** [PortForwardResponse{}] *)
Definition zero_PortForwardResponse : PortForwardResponse :=
  mkPortForwardResponse EmptyString 0.

(** What a method of the client runs on: the remote side of the
    connection and the entries written to the logger. *)
Record World (S : Type) : Type := mkWorld {
  remote : S;
  logs : list LogEntry
}.

Arguments mkWorld {S} _ _.
Arguments remote {S} _.
Arguments logs {S} _.

(** State passing for the methods. *)
Definition M (S A : Type) : Type := World S -> A * World S.

Definition ret {S A : Type} (a : A) : M S A := fun w => (a, w).

Definition bind {S A B : Type} (m : M S A) (k : A -> M S B) : M S B :=
  fun w => let '(a, w') := m w in k a w'.

(** A call of the stub. *)
Definition rpc {S A : Type} (call : S -> A * S) : M S A :=
  fun w => let '(a, s') := call (remote w) in (a, mkWorld s' (logs w)).

(** [log.From(ctx).Errorf(msg)] *)
Definition Errorf {S : Type} (msg : string) : M S unit :=
  fun w => (tt, mkWorld (remote w) (logs w ++ [mkLogEntry None msg])).

Notation "'let*' p := m 'in' k" := (bind m (fun x => match x with p => k end))
  (at level 10, p pattern, m at level 200, k at level 200).

Section Client.

(** The carrier of the contexts, [store.Key], [proto.KeyRequest],
    [unstructured.Unstructured], [unstructured.UnstructuredList], the
    object on the wire, and the state of the remote side. *)
Context {C Key KeyRequest Unstructured UnstructuredList WireObject S : Type}.

(** The conversion helpers of the package; their file is not among the
    sources, the client is stated for any of them. *)
Variable convertFromKey : Key -> KeyRequest * option error.
Variable convertToObjects :
  list WireObject -> option UnstructuredList * option error.
Variable convertToObject :
  WireObject -> option Unstructured * bool * option error.
Variable convertFromObject : option Unstructured -> WireObject * option error.

(** [DashboardConnection]: [Client()] hands out the stub over the
    connection, as [defaultDashboardConnection.Client] does with
    [proto.NewDashboardClient]; it makes no call itself. *)
Record DashboardConnection : Type := mkDashboardConnection {
  conn_Close : S -> option error * S;
  conn_Client : proto.DashboardClient C KeyRequest WireObject S
}.

(** [Client]; its connection is not nil, as [NewClient] leaves it. *)
Record Client : Type := mkClient {
  DashboardConnection_ : DashboardConnection
}.

(** [Client.Close] *)
Definition Close (c : Client) : M S (option error) :=
  rpc (conn_Close (DashboardConnection_ c)).

(** [Client.List] *)
Definition List (c : Client) (ctx : C) (key : Key)
  : M S (option UnstructuredList * option error) :=
  let client := conn_Client (DashboardConnection_ c) in
  let '(keyRequest, err) := convertFromKey key in
  match err with
  | Some err => ret (None, Some err)
  | None =>
      let* (resp, err) := rpc (proto.List client ctx keyRequest) in
      match err with
      | Some err => ret (None, Some err)
      | None =>
          let '(objects, err) := convertToObjects (proto.Objects resp) in
          match err with
          | Some err => ret (None, Some err)
          | None => ret (objects, None)
          end
      end
  end.

(** [Client.Get] *)
Definition Get (c : Client) (ctx : C) (key : Key)
  : M S (option Unstructured * bool * option error) :=
  let client := conn_Client (DashboardConnection_ c) in
  let '(keyRequest, err) := convertFromKey key in
  match err with
  | Some err => ret (None, false, Some err)
  | None =>
      let* (resp, err) := rpc (proto.Get client ctx keyRequest) in
      match err with
      | Some err => ret (None, false, Some err)
      | None =>
          let '(object, found, err) := convertToObject (proto.Object resp) in
          match err with
          | Some err => ret (None, false, Some err)
          | None => ret (object, found, None)
          end
      end
  end.

(** [Client.Update] *)
Definition Update (c : Client) (ctx : C) (object : option Unstructured)
  : M S (option error) :=
  let client := conn_Client (DashboardConnection_ c) in
  let '(data, err) := convertFromObject object in
  match err with
  | Some err => ret (Some err)
  | None =>
      let req := proto.mkUpdateRequest data in
      let* (_, err) := rpc (proto.Update client ctx req) in
      ret err
  end.

(** The request [Client.PortForward] puts on the wire. *)
Definition pfRequest (req : PortForwardRequest) : proto.PortForwardRequest :=
  proto.mkPortForwardRequest (Namespace req) (PodName req) (uint32 (Port req)).

(** [Client.PortForward] *)
Definition PortForward (c : Client) (ctx : C) (req : PortForwardRequest)
  : M S (PortForwardResponse * option error) :=
  let client := conn_Client (DashboardConnection_ c) in
  let pfRequest := pfRequest req in
  let* (resp, err) := rpc (proto.PortForward client ctx pfRequest) in
  match err with
  | Some err => ret (zero_PortForwardResponse, Some err)
  | None =>
      ret (mkPortForwardResponse (proto.PortForwardID resp)
                                 (uint16 (proto.resp_PortNumber resp)),
           None)
  end.

(** [Client.CancelPortForward]: the method has no result. *)
Definition CancelPortForward (c : Client) (ctx : C) (id : string)
  : M S unit :=
  let client := conn_Client (DashboardConnection_ c) in
  let req := proto.mkCancelPortForwardRequest id in
  let* (_, err) := rpc (proto.CancelPortForward client ctx req) in
  match err with
  | Some err =>
      Errorf ("unable to cancel port forward: " ++ Error err)
  | None => ret tt
  end.

(** [Client.ForceFrontendUpdate] *)
Definition ForceFrontendUpdate (c : Client) (ctx : C) : M S (option error) :=
  let client := conn_Client (DashboardConnection_ c) in
  let* (_, err) := rpc (proto.ForceFrontendUpdate client ctx proto.mkEmpty) in
  ret err.

(** [*grpc.ClientConn], by what [defaultDashboardConnection] does
    with it: [conn.Close()] and [proto.NewDashboardClient(conn)]. *)
Record grpc_ClientConn : Type := mk_grpc_ClientConn {
  grpc_Close : S -> option error * S;
  proto_NewDashboardClient : proto.DashboardClient C KeyRequest WireObject S
}.

(** [defaultDashboardConnection] with its methods [Close] and [Client]. *)
Definition defaultDashboardConnection (conn : grpc_ClientConn)
  : DashboardConnection :=
  mkDashboardConnection (grpc_Close conn) (proto_NewDashboardClient conn).

(** [ClientOption]: an option acts on the client under construction,
    that is on its one field, which is nil in [&Client{}]. *)
Definition ClientOption : Type :=
  option DashboardConnection -> option DashboardConnection.

(** [NewClient(address, options...)]; [Dial] is [grpc.Dial] with
    [grpc.WithInsecure()], running on the state [D] of the network. *)
Definition NewClient {D : Type}
    (Dial : string -> D -> (grpc_ClientConn * option error) * D)
    (address : string) (options : list ClientOption)
  : D -> (option Client * option error) * D :=
  fun d =>
    let client := fold_left (fun c option => option c) options None in
    match client with
    | None =>
        let '(conn, err, d') := Dial address d in
        match err with
        | Some err => (None, Some err, d')
        | None => (Some (mkClient (defaultDashboardConnection conn)), None, d')
        end
    | Some connection => (Some (mkClient connection), None, d)
    end.

End Client.

Arguments DashboardConnection : clear implicits.
Arguments grpc_ClientConn : clear implicits.
Arguments ClientOption : clear implicits.
Arguments Client : clear implicits.

End pluginapi.

(** ** Test doubles

    A scripted generator for the manager and a recording stub for the
    client, in the manner of the package's generated mocks. *)

Module fake.

Import Go.

(** A cycle as the closure observes it: what the generator returns in
    it and what [ctx.Err()] answers. *)
Record Cycle : Type := mkCycle {
  generated : strings * option error;
  cancelled : option error
}.

#[global] Instance Cycle_Context : context_Context Cycle :=
  {| Err := cancelled |}.

Definition generator : api.NamespacesGenerateFunc :=
  fun (ctx : Cycle) _ => generated ctx.

Definition manager : api.NamespacesManager :=
  api.WithNamespacesGenerator generator (api.NewNamespacesManager None).

Definition returns (l : list string) : Cycle :=
  mkCycle (mk_strings l, None) None.

Definition fails (msg : string) : Cycle :=
  mkCycle (nil_strings, Some (errors_New msg)) None.

Definition returns_cancelled (l : list string) : Cycle :=
  mkCycle (mk_strings l, None) (Some (errors_New "context canceled")).

(** A cluster whose listing call fails. *)
Definition cluster_without_list : api.NamespaceManagerConfig :=
  api.mkNamespaceManagerConfig
    (cluster.mkClientInterface
       (cluster.mkNamespaceInterface
          (nil_strings, Some (errors_New "forbidden")) "default",
        None)).

(** The calls a recording stub has received, oldest first. *)
Inductive Call : Type :=
| CallList (key : string)
| CallGet (key : string)
| CallUpdate (object : string)
| CallPortForward (req : proto.PortForwardRequest)
| CallCancelPortForward (id : string)
| CallForceFrontendUpdate.

Definition cancelled_before (id : string) (calls : list Call) : bool :=
  existsb (fun c => match c with
                    | CallCancelPortForward id' => String.eqb id id'
                    | _ => false
                    end) calls.

(** The stub: keys, key requests and objects are strings; the key
    [down] meets a broken transport, the key [pods/web-0] an object, any
    other key none; a port forward is given the id [pf-1] and the local
    port [local]; cancelling an id a second time fails. *)
Definition stub (local : Z)
  : proto.DashboardClient unit string string (list Call) :=
  proto.mkDashboardClient
    (fun _ key s =>
       (proto.mkListResponse [], None, s ++ [CallList key]))
    (fun _ key s =>
       if String.eqb key "down" then
         (proto.mkGetResponse EmptyString,
          Some (errors_New "transport is closing"), s ++ [CallGet key])
       else if String.eqb key "pods/web-0" then
         (proto.mkGetResponse "web-0"%string, None, s ++ [CallGet key])
       else
         (proto.mkGetResponse EmptyString, None, s ++ [CallGet key]))
    (fun _ req s =>
       (proto.mkEmpty, None, s ++ [CallUpdate (proto.req_Object req)]))
    (fun _ req s =>
       (proto.mkPortForwardResponse "pf-1" local, None,
        s ++ [CallPortForward req]))
    (fun _ req s =>
       let id := proto.cancel_PortForwardID req in
       (proto.mkEmpty,
        if cancelled_before id s
        then Some (errors_New "port forward not found") else None,
        s ++ [CallCancelPortForward id]))
    (fun _ _ s => (proto.mkEmpty, None, s ++ [CallForceFrontendUpdate])).

Definition convertFromKey (key : string) : string * option error :=
  if String.eqb key EmptyString
  then (EmptyString, Some (errors_New "empty key")) else (key, None).

Definition convertToObjects (l : list string)
  : option (list string) * option error := (Some l, None).

Definition convertToObject (data : string)
  : option string * bool * option error :=
  if String.eqb data EmptyString then (None, false, None)
  else (Some data, true, None).

Definition convertFromObject (object : option string)
  : string * option error :=
  match object with
  | None => (EmptyString, Some (errors_New "object is nil"))
  | Some o => (o, None)
  end.

Definition client (local : Z)
  : pluginapi.Client unit string string (list Call) :=
  pluginapi.mkClient
    (pluginapi.mkDashboardConnection (fun s => (None, s)) (stub local)).

(** A connection on which no call has been made, with an empty log. *)
Definition fresh : pluginapi.World (list Call) := pluginapi.mkWorld [] [].

(** The methods of the client on the doubles. *)
Definition Get (local : Z) :=
  pluginapi.Get convertFromKey convertToObject (client local) tt.
Definition Update (local : Z) :=
  pluginapi.Update convertFromObject (client local) tt.
Definition PortForward (local : Z) := pluginapi.PortForward (client local) tt.
Definition CancelPortForward (local : Z) :=
  pluginapi.CancelPortForward (client local) tt.

(** A manager on a cluster, with the default generator. *)
Definition cluster_manager (config : option api.NamespaceManagerConfig)
  : api.NamespacesManager (C := Cycle) :=
  api.NewNamespacesManager config.

(** A dialer that counts its calls and reaches every address but
    [unreachable]. *)
Definition Dial (address : string) (dials : nat)
  : pluginapi.grpc_ClientConn unit string string (list Call)
    * option error * nat :=
  (pluginapi.mk_grpc_ClientConn (fun s => (None, s)) (stub 0),
   if String.eqb address "unreachable"
   then Some (errors_New "dial failed") else None,
   S dials).

(** An option that injects the connection of [client local]. *)
Definition with_connection (local : Z)
  : pluginapi.ClientOption unit string string (list Call) :=
  fun _ => Some (pluginapi.DashboardConnection_ (client local)).

Definition List (local : Z) :=
  pluginapi.List convertFromKey convertToObjects (client local) tt.

End fake.

(** * Properties *)

(** ** Byte slices *)

Lemma byte_val_inj (a b : byte) : Go.byte_val a = Go.byte_val b -> a = b.
Proof.
  unfold Go.byte_val. intros E.
  apply N2Z.inj in E.
  assert (Some a = Some b) as [= ->]; [|reflexivity].
  rewrite <- (Byte.of_to_N a), <- (Byte.of_to_N b). now rewrite E.
Qed.

Lemma bytes_Compare_refl (a : Go.bytes) : Go.bytes_Compare a a = 0.
Proof.
  induction a as [|x a IH]; simpl; [reflexivity|].
  rewrite Z.ltb_irrefl. exact IH.
Qed.

Lemma bytes_Compare_eq (a b : Go.bytes) :
  Go.bytes_Compare a b = 0 <-> a = b.
Proof.
  split; [|intros ->; apply bytes_Compare_refl].
  revert b. induction a as [|x a IH]; intros [|y b]; simpl; try discriminate.
  - reflexivity.
  - destruct (Go.byte_val x <? Go.byte_val y) eqn:Hxy; [discriminate|].
    destruct (Go.byte_val y <? Go.byte_val x) eqn:Hyx; [discriminate|].
    intros E. apply Z.ltb_ge in Hxy, Hyx.
    f_equal; [apply byte_val_inj; lia | apply IH, E].
Qed.

Lemma bytes_eq_dec (a b : Go.bytes) : {a = b} + {a <> b}.
Proof.
  destruct (Z.eq_dec (Go.bytes_Compare a b) 0) as [E|E].
  - left. now apply bytes_Compare_eq.
  - right. intros ->. apply E, bytes_Compare_refl.
Qed.

Lemma bytes_differ_spec (a b : Go.bytes) :
  negb (Go.bytes_Compare a b =? 0) = true <-> a <> b.
Proof.
  rewrite negb_true_iff, Z.eqb_neq, bytes_Compare_eq. reflexivity.
Qed.

Lemma bytes_same_spec (a b : Go.bytes) :
  negb (Go.bytes_Compare a b =? 0) = false <-> a = b.
Proof.
  rewrite negb_false_iff, Z.eqb_eq, bytes_Compare_eq. reflexivity.
Qed.

(** ** encoding/json *)

Example Marshal_a_b :
  json.Marshal (Go.mk_strings ["a"; "b"]%string)
  = ("["%byte :: x22 :: "a"%byte :: x22 :: ","%byte
       :: x22 :: "b"%byte :: x22 :: ["]"%byte], None).
Proof. reflexivity. Qed.

Example Marshal_empty_and_nil :
  fst (json.Marshal (Go.mk_strings [])) = list_byte_of_string "[]"
  /\ fst (json.Marshal Go.nil_strings) = list_byte_of_string "null".
Proof. split; reflexivity. Qed.

Example encode_string_escapes :
  json.encode_string (String "<" (String "010" (String "001" (String "255" "z"))))
  = x22 :: list_byte_of_string "\u003c\n\u0001\ufffdz" ++ [x22].
Proof. reflexivity. Qed.

Example encode_string_line_separator :
  json.encode_string (String "226" (String "128" (String "168" "z")))
  = x22 :: list_byte_of_string "\u2028z" ++ [x22].
Proof. reflexivity. Qed.

Lemma Marshal_no_error (v : Go.strings) : snd (json.Marshal v) = None.
Proof. destruct v; reflexivity. Qed.

Lemma Marshal_not_empty (v : Go.strings) : fst (json.Marshal v) <> [].
Proof. destruct v; discriminate. Qed.

Lemma Marshal_pair (v : Go.strings) :
  json.Marshal v = (fst (json.Marshal v), None).
Proof. destruct v; reflexivity. Qed.

(** ** The poll closure, one cycle at a time *)

Lemma snoc_neq {A : Type} (l : list A) (x : A) : l ++ [x] <> l.
Proof.
  intros E. apply (f_equal (@length A)) in E.
  rewrite length_app in E. simpl in E. lia.
Qed.

Lemma event_namespaces_Create (ns : Go.strings) :
  api.event_namespaces (api.CreateNamespacesEvent ns) = ns.
Proof.
  unfold api.event_namespaces, api.CreateNamespacesEvent. simpl.
  now rewrite lookup_singleton_eq.
Qed.

Section ManagerFacts.

Context {C : Type} `{context_Context C}.
Variable Marshal : Go.strings -> Go.bytes * option Go.error.
Variable n : api.NamespacesManager (C := C).

Local Abbreviation generate ctx :=
  (api.namespacesGeneratorFunc n ctx (api.config n)).
Local Abbreviation poll := (api.runUpdate Marshal n).

(** The generator failed: one log entry, nothing else. *)
Lemma runUpdate_generator_failed ctx st ns e :
  generate ctx = (ns, Some e) ->
  poll ctx st = (false, api.Errorf (Some e) "load namespaces" st).
Proof. intros G. unfold api.runUpdate. now rewrite G. Qed.

(** The context is done when the comparison is reached. *)
Lemma runUpdate_done ctx st ns e :
  generate ctx = (ns, None) -> Err ctx = Some e -> poll ctx st = (false, st).
Proof. intros G D. unfold api.runUpdate. now rewrite G, D. Qed.

(** The serialization failed. *)
Lemma runUpdate_marshal_failed ctx st ns cur e :
  generate ctx = (ns, None) -> Err ctx = None -> Marshal ns = (cur, Some e) ->
  poll ctx st
  = (false, api.Errorf (Some e) "unable to marshal namespaces" st).
Proof. intros G D S. unfold api.runUpdate. now rewrite G, D, S. Qed.

(** The serialization is the baseline. *)
Lemma runUpdate_unchanged ctx st ns :
  generate ctx = (ns, None) -> Err ctx = None ->
  Marshal ns = (api.previous st, None) ->
  poll ctx st = (false, st).
Proof.
  intros G D S. unfold api.runUpdate. rewrite G, D, S.
  now rewrite (proj2 (bytes_same_spec _ _) eq_refl).
Qed.

(** The serialization differs from the baseline. *)
Lemma runUpdate_changed ctx st ns cur :
  generate ctx = (ns, None) -> Err ctx = None -> Marshal ns = (cur, None) ->
  cur <> api.previous st ->
  poll ctx st
  = (false, api.Send (api.CreateNamespacesEvent ns) (api.set_previous cur st)).
Proof.
  intros G D S N. unfold api.runUpdate. rewrite G, D, S.
  rewrite (proj2 (bytes_differ_spec (api.previous st) cur)); [reflexivity|].
  congruence.
Qed.

(** The closure tells the poller to go on, whatever happens. *)
Lemma runUpdate_false ctx st : fst (poll ctx st) = false.
Proof.
  unfold api.runUpdate.
  destruct (generate ctx) as [ns [e|]]; [reflexivity|].
  destruct (Err ctx); [reflexivity|].
  destruct (Marshal ns) as [cur [e|]]; [reflexivity|].
  now destruct (negb _).
Qed.

Local Abbreviation baseline_ok := (api.baseline_ok Marshal).

Lemma baseline_ok_initial : baseline_ok api.initial.
Proof. reflexivity. Qed.

Lemma baseline_ok_runUpdate ctx st :
  baseline_ok st -> baseline_ok (snd (poll ctx st)).
Proof.
  unfold api.baseline_ok. intros I.
  destruct (generate ctx) as [ns [e|]] eqn:G.
  { now rewrite (runUpdate_generator_failed _ _ _ _ G). }
  destruct (Err ctx) as [e|] eqn:D.
  { now rewrite (runUpdate_done _ _ _ _ G D). }
  destruct (Marshal ns) as [cur [e|]] eqn:S.
  { now rewrite (runUpdate_marshal_failed _ _ _ _ _ G D S). }
  destruct (bytes_eq_dec cur (api.previous st)) as [->|N].
  { now rewrite (runUpdate_unchanged _ _ _ G D S). }
  rewrite (runUpdate_changed _ _ _ _ G D S N). simpl.
  unfold api.last_pushed. simpl.
  now rewrite last_snoc, event_namespaces_Create, S.
Qed.

Lemma baseline_ok_cycles ctxs st :
  baseline_ok st -> baseline_ok (api.cycles poll ctxs st).
Proof.
  revert st. induction ctxs as [|ctx ctxs IH]; intros st I; simpl; [exact I|].
  apply IH, baseline_ok_runUpdate, I.
Qed.


End ManagerFacts.

(** ** The namespaces manager *)

(** For any serialization function: through any run of the update task,
    a cycle whose generator call succeeds, whose context is not done and
    whose output serializes pushes exactly when that serialization
    differs from the one pushed last. *)
Lemma runUpdate_pushes_iff_changed_for_any_Marshal
    {C : Type} `{context_Context C}
    (Marshal : Go.strings -> Go.bytes * option Go.error)
    (n : api.NamespacesManager) (earlier : list C) (ctx : C)
    (ns : Go.strings) (cur : Go.bytes) :
  api.namespacesGeneratorFunc n ctx (api.config n) = (ns, None) ->
  Err ctx = None ->
  Marshal ns = (cur, None) ->
  let st := api.cycles (api.runUpdate Marshal n) earlier api.initial in
  let st' := snd (api.runUpdate Marshal n ctx st) in
  (api.sent st' = api.sent st ++ [api.CreateNamespacesEvent ns]
   <-> cur <> api.last_pushed Marshal st)
  /\ (api.sent st' = api.sent st <-> cur = api.last_pushed Marshal st)
  /\ api.previous st' = cur
  /\ api.last_pushed Marshal st' = cur
  /\ (forall ctx' : C,
        api.namespacesGeneratorFunc n ctx' (api.config n) = (ns, None) ->
        Err ctx' = None ->
        api.runUpdate Marshal n ctx' st' = (false, st')).
Proof.
  intros G D S st st'.
  assert (I : api.baseline_ok Marshal st)
    by apply baseline_ok_cycles, baseline_ok_initial.
  assert (I' : api.baseline_ok Marshal st')
    by apply baseline_ok_runUpdate, I.
  unfold api.baseline_ok in I, I'.
  assert (P : api.previous st' = cur
              /\ (cur = api.previous st -> api.sent st' = api.sent st)
              /\ (cur <> api.previous st ->
                  api.sent st' = api.sent st ++ [api.CreateNamespacesEvent ns])).
  { subst st'. destruct (bytes_eq_dec cur (api.previous st)) as [E|N].
    - rewrite E in S. rewrite (runUpdate_unchanged _ _ _ _ _ G D S).
      simpl. now split; [|split].
    - rewrite (runUpdate_changed _ _ _ _ _ _ G D S N). simpl.
      now split; [|split]. }
  destruct P as (P1 & P2 & P3). rewrite <- I.
  repeat split.
  - intros E N. apply P2 in N. rewrite N in E. symmetry in E.
    now apply snoc_neq in E.
  - exact P3.
  - intros E. destruct (bytes_eq_dec cur (api.previous st)) as [|N]; [assumption|].
    apply P3 in N. rewrite N in E. now apply snoc_neq in E.
  - exact P2.
  - exact P1.
  - now rewrite <- I'.
  - intros ctx' G' D'. apply (runUpdate_unchanged _ _ _ _ _ G' D').
    now rewrite P1.
Qed.

(** C1: through any run of the update task from a new closure, a cycle
    whose generator call succeeds and whose context is not done pushes
    an event to the sink exactly when the JSON serialization of its
    output differs from the serialization pushed last (empty while
    nothing was pushed); after the cycle that serialization is the
    baseline and the one pushed last, so that a next cycle with the same
    output pushes nothing. *)
Theorem runUpdate_pushes_iff_serialization_changed
    {C : Type} `{context_Context C}
    (n : api.NamespacesManager) (earlier : list C) (ctx : C)
    (ns : Go.strings) :
  api.namespacesGeneratorFunc n ctx (api.config n) = (ns, None) ->
  Err ctx = None ->
  let poll := api.runUpdate json.Marshal n in
  let cur := fst (json.Marshal ns) in
  let st := api.cycles poll earlier api.initial in
  let st' := snd (poll ctx st) in
  (api.sent st' = api.sent st ++ [api.CreateNamespacesEvent ns]
   <-> cur <> api.last_pushed json.Marshal st)
  /\ (api.sent st' = api.sent st <-> cur = api.last_pushed json.Marshal st)
  /\ api.previous st' = cur
  /\ api.last_pushed json.Marshal st' = cur
  /\ (forall ctx' : C,
        api.namespacesGeneratorFunc n ctx' (api.config n) = (ns, None) ->
        Err ctx' = None ->
        poll ctx' st' = (false, st')).
Proof.
  intros G D.
  exact (runUpdate_pushes_iff_changed_for_any_Marshal
           json.Marshal n earlier ctx ns _ G D (Marshal_pair ns)).
Qed.

(** C2: from the empty baseline, a cycle whose generator call succeeds
    with a context that is not done appends exactly one event to the
    sink; its type is [namespaces] and its data maps the one key
    [namespaces] to the generated list. *)
Theorem first_success_pushes_namespaces_event
    {C : Type} `{context_Context C}
    (n : api.NamespacesManager) (ctx : C) (ns : Go.strings) (st : api.State) :
  api.previous st = [] ->
  api.namespacesGeneratorFunc n ctx (api.config n) = (ns, None) ->
  Err ctx = None ->
  let st' := snd (api.runUpdate json.Marshal n ctx st) in
  exists ev : octant.Event,
    api.sent st' = api.sent st ++ [ev]
    /\ octant.Event_Type ev = "namespaces"%string
    /\ octant.Event_Data ev = {[ "namespaces"%string := octant.any_strings ns ]}
    /\ api.previous st' = fst (json.Marshal ns).
Proof.
  intros B G D st'. exists (api.CreateNamespacesEvent ns). subst st'.
  rewrite (runUpdate_changed _ _ _ _ _ _ G D (Marshal_pair ns)).
  - now repeat split.
  - rewrite B. apply Marshal_not_empty.
Qed.


(** C4: with a configuration that is not nil, a namespace client
    obtained without error and a listing call that fails, the default
    generator returns the one-element list of the initial namespace and
    no error. *)
Theorem NamespacesGenerator_falls_back_to_initial_namespace
    {C : Type} (ctx : C) (config : api.NamespaceManagerConfig)
    (namespaceClient : cluster.NamespaceInterface)
    (names : Go.strings) (e : Go.error) :
  cluster.NamespaceClient (api.ClusterClient config) = (namespaceClient, None) ->
  cluster.Names namespaceClient = (names, Some e) ->
  api.NamespacesGenerator ctx (Some config)
  = (Go.mk_strings [cluster.InitialNamespace namespaceClient], None).
Proof.
  intros Hc Hn. unfold api.NamespacesGenerator. now rewrite Hc, Hn.
Qed.

(** C5: when three cycles with contexts that are not done generate
    [a, b], then [a, b], then [b, a], the closure, started from the
    empty baseline, pushes in the first and in the third and not in the
    second: the two orders have different serializations. *)
Theorem reordered_list_is_pushed_again
    {C : Type} `{context_Context C}
    (n : api.NamespacesManager) (c1 c2 c3 : C) (st : api.State) :
  let ab := Go.mk_strings ["a"; "b"]%string in
  let ba := Go.mk_strings ["b"; "a"]%string in
  api.previous st = [] ->
  api.namespacesGeneratorFunc n c1 (api.config n) = (ab, None) ->
  api.namespacesGeneratorFunc n c2 (api.config n) = (ab, None) ->
  api.namespacesGeneratorFunc n c3 (api.config n) = (ba, None) ->
  Err c1 = None -> Err c2 = None -> Err c3 = None ->
  let poll := api.runUpdate json.Marshal n in
  let st1 := snd (poll c1 st) in
  let st2 := snd (poll c2 st1) in
  let st3 := snd (poll c3 st2) in
  api.sent st1 = api.sent st ++ [api.CreateNamespacesEvent ab]
  /\ api.sent st2 = api.sent st1
  /\ api.sent st3 = api.sent st2 ++ [api.CreateNamespacesEvent ba]
  /\ api.cycles poll [c1; c2; c3] st = st3
  /\ fst (json.Marshal ab) <> fst (json.Marshal ba).
Proof.
  intros ab ba B G1 G2 G3 D1 D2 D3 poll st1 st2 st3.
  assert (E1 : poll c1 st
               = (false, api.Send (api.CreateNamespacesEvent ab)
                           (api.set_previous (fst (json.Marshal ab)) st))).
  { apply (runUpdate_changed _ _ _ _ _ _ G1 D1 (Marshal_pair ab)).
    rewrite B. discriminate. }
  assert (E2 : poll c2 st1 = (false, st1)).
  { apply (runUpdate_unchanged _ _ _ _ _ G2 D2).
    subst st1. now rewrite E1. }
  assert (E3 : poll c3 st2
               = (false, api.Send (api.CreateNamespacesEvent ba)
                           (api.set_previous (fst (json.Marshal ba)) st2))).
  { apply (runUpdate_changed _ _ _ _ _ _ G3 D3 (Marshal_pair ba)).
    subst st2. rewrite E2. subst st1. rewrite E1. discriminate. }
  repeat split.
  - subst st1. now rewrite E1.
  - subst st2. now rewrite E2.
  - subst st3. now rewrite E3.
  - discriminate.
Qed.

(** C10: when the generator call succeeds and the context is done at
    the comparison step, the cycle returns [false] and leaves the
    baseline, the sink and the log as they were, whatever the
    serialization function would have answered: it is not consulted. *)
Theorem done_context_leaves_baseline
    {C : Type} `{context_Context C}
    (Marshal : Go.strings -> Go.bytes * option Go.error)
    (n : api.NamespacesManager) (ctx : C) (st : api.State)
    (ns : Go.strings) (e : Go.error) :
  api.namespacesGeneratorFunc n ctx (api.config n) = (ns, None) ->
  Err ctx = Some e ->
  api.runUpdate Marshal n ctx st = (false, st).
Proof. intros G D. exact (runUpdate_done Marshal n ctx st ns e G D). Qed.

(** ** The dashboard client *)

Section ClientFacts.

Context {C Key KeyRequest Unstructured UnstructuredList WireObject S : Type}.
Variable convertFromKey : Key -> KeyRequest * option Go.error.
Variable convertToObject :
  WireObject -> option Unstructured * bool * option Go.error.
Variable convertFromObject :
  option Unstructured -> WireObject * option Go.error.

Local Abbreviation stub_of c :=
  (pluginapi.conn_Client (pluginapi.DashboardConnection_ c)).

(** What [Get] returns once the key is converted, by the outcome of the
    remote call and of the conversion of its response. *)
Lemma Get_after_key_conversion
    (c : pluginapi.Client C KeyRequest WireObject S) (ctx : C) (key : Key)
    (keyRequest : KeyRequest) (w : pluginapi.World S) :
  convertFromKey key = (keyRequest, None) ->
  pluginapi.Get convertFromKey convertToObject c ctx key w
  = let r := proto.Get (stub_of c) ctx keyRequest (pluginapi.remote w) in
    let w' := pluginapi.mkWorld (snd r) (pluginapi.logs w) in
    match snd (fst r) with
    | Some err => (None, false, Some err, w')
    | None =>
        match convertToObject (proto.Object (fst (fst r))) with
        | (_, _, Some err) => (None, false, Some err, w')
        | (object, found, None) => (object, found, None, w')
        end
    end.
Proof.
  intros K. unfold pluginapi.Get, pluginapi.bind, pluginapi.rpc. rewrite K.
  destruct (proto.Get _ ctx keyRequest _) as [[resp [err|]] s']; simpl;
    [reflexivity|].
  now destruct (convertToObject _) as [[object found] [err|]].
Qed.

(** C6: when the key converts and the remote call succeeds with an
    object that the conversion reports as not found, without error,
    [Get] returns [found = false] and a nil error; when the remote call
    fails instead, [Get] returns that error with [found = false], so the
    two outcomes differ. *)
Theorem Get_absent_is_not_an_error
    (c : pluginapi.Client C KeyRequest WireObject S) (ctx : C) (key : Key)
    (keyRequest : KeyRequest) (w : pluginapi.World S)
    (resp : proto.GetResponse WireObject) (s' : S)
    (object : option Unstructured) :
  convertFromKey key = (keyRequest, None) ->
  proto.Get (stub_of c) ctx keyRequest (pluginapi.remote w)
  = (resp, None, s') ->
  convertToObject (proto.Object resp) = (object, false, None) ->
  pluginapi.Get convertFromKey convertToObject c ctx key w
  = (object, false, None, pluginapi.mkWorld s' (pluginapi.logs w))
  /\ forall (c' : pluginapi.Client C KeyRequest WireObject S)
            (w' : pluginapi.World S) (resp' : proto.GetResponse WireObject)
            (e : Go.error) (s'' : S),
       proto.Get (stub_of c') ctx keyRequest (pluginapi.remote w')
       = (resp', Some e, s'') ->
       pluginapi.Get convertFromKey convertToObject c' ctx key w'
       = (None, false, Some e, pluginapi.mkWorld s'' (pluginapi.logs w'))
       /\ fst (pluginapi.Get convertFromKey convertToObject c' ctx key w')
          <> fst (pluginapi.Get convertFromKey convertToObject c ctx key w).
Proof.
  intros K R O.
  assert (E : pluginapi.Get convertFromKey convertToObject c ctx key w
              = (object, false, None, pluginapi.mkWorld s' (pluginapi.logs w))).
  { rewrite (Get_after_key_conversion _ _ _ _ _ K), R. simpl. now rewrite O. }
  split; [exact E|].
  intros c' w' resp' e s'' R'.
  assert (E' : pluginapi.Get convertFromKey convertToObject c' ctx key w'
               = (None, false, Some e,
                  pluginapi.mkWorld s'' (pluginapi.logs w'))).
  { now rewrite (Get_after_key_conversion _ _ _ _ _ K), R'. }
  split; [exact E'|]. rewrite E, E'. simpl. congruence.
Qed.

(** What [CancelPortForward] leaves in the log for the error of the
    remote call. *)
Lemma CancelPortForward_eq
    (c : pluginapi.Client C KeyRequest WireObject S) (ctx : C) (id : string)
    (w : pluginapi.World S) :
  pluginapi.CancelPortForward c ctx id w
  = let r := proto.CancelPortForward (stub_of c) ctx
               (proto.mkCancelPortForwardRequest id) (pluginapi.remote w) in
    (tt, pluginapi.mkWorld (snd r)
           (pluginapi.logs w ++
            match snd (fst r) with
            | Some err =>
                [Go.mkLogEntry None
                   ("unable to cancel port forward: " ++ Go.Error err)]
            | None => []
            end)).
Proof.
  unfold pluginapi.CancelPortForward, pluginapi.bind, pluginapi.rpc.
  destruct (proto.CancelPortForward _ ctx _ _) as [[resp [err|]] s']; simpl.
  - reflexivity.
  - unfold pluginapi.ret. now rewrite app_nil_r.
Qed.

(** C7: [CancelPortForward] has nothing but the unit to return: for any
    client, context, id and state of the connection it ends with the
    remote side as the remote call left it and, when that call failed,
    with one more log entry made of its error; two calls in a row with
    one id end the same way. *)
Theorem CancelPortForward_only_logs
    (c : pluginapi.Client C KeyRequest WireObject S) (ctx : C) (id : string)
    (w : pluginapi.World S) :
  let cancel := pluginapi.CancelPortForward c ctx id in
  let r := proto.CancelPortForward (stub_of c) ctx
             (proto.mkCancelPortForwardRequest id) (pluginapi.remote w) in
  cancel w
  = (tt, pluginapi.mkWorld (snd r)
           (pluginapi.logs w ++
            match snd (fst r) with
            | Some err =>
                [Go.mkLogEntry None
                   ("unable to cancel port forward: " ++ Go.Error err)]
            | None => []
            end))
  /\ pluginapi.bind cancel (fun _ => cancel) w = (tt, snd (cancel (snd (cancel w)))).
Proof.
  intros cancel r. split; [apply CancelPortForward_eq|].
  unfold pluginapi.bind. destruct (cancel w) as [[] w1]. simpl.
  now destruct (cancel w1) as [[] w2].
Qed.

(** C8: when the conversion of the object fails, [Update] returns the
    error of the conversion and the connection is as before: no method
    of the stub has run. *)
Theorem Update_conversion_failure_makes_no_call
    (c : pluginapi.Client C KeyRequest WireObject S) (ctx : C)
    (object : option Unstructured) (data : WireObject) (e : Go.error)
    (w : pluginapi.World S) :
  convertFromObject object = (data, Some e) ->
  pluginapi.Update convertFromObject c ctx object w = (Some e, w).
Proof. intros F. unfold pluginapi.Update. now rewrite F. Qed.

(** When the conversion succeeds, the remote [Update] runs on the
    converted object and its error is the result. *)
Lemma Update_converted
    (c : pluginapi.Client C KeyRequest WireObject S) (ctx : C)
    (object : option Unstructured) (data : WireObject)
    (w : pluginapi.World S) :
  convertFromObject object = (data, None) ->
  pluginapi.Update convertFromObject c ctx object w
  = let r := proto.Update (stub_of c) ctx (proto.mkUpdateRequest data)
               (pluginapi.remote w) in
    (snd (fst r), pluginapi.mkWorld (snd r) (pluginapi.logs w)).
Proof.
  intros F. unfold pluginapi.Update, pluginapi.bind, pluginapi.rpc. rewrite F.
  now destruct (proto.Update _ ctx _ _) as [[resp err] s'].
Qed.

(** C9, as the code has it: [PortForward] checks no range.  The port of
    a request, a 16-bit value, goes on the wire as it is; a failing
    remote call is returned with the zero response; on success the
    response carries the session id of the extension and its port number
    reduced modulo 2^16, which fits in 16 bits and is the port the
    extension allocated whenever that one is below 65536. *)
Theorem PortForward_ports
    (c : pluginapi.Client C KeyRequest WireObject S) (ctx : C)
    (req : pluginapi.PortForwardRequest) (w : pluginapi.World S) :
  pluginapi.wf_PortForwardRequest req ->
  let r := proto.PortForward (stub_of c) ctx (pluginapi.pfRequest req)
             (pluginapi.remote w) in
  let resp := fst (fst r) in
  let out := pluginapi.PortForward c ctx req w in
  proto.PortNumber (pluginapi.pfRequest req) = pluginapi.Port req
  /\ 0 <= proto.PortNumber (pluginapi.pfRequest req) < 2 ^ 16
  /\ snd out = pluginapi.mkWorld (snd r) (pluginapi.logs w)
  /\ fst out
     = match snd (fst r) with
       | Some err => (pluginapi.zero_PortForwardResponse, Some err)
       | None =>
           (pluginapi.mkPortForwardResponse (proto.PortForwardID resp)
              (proto.resp_PortNumber resp mod 2 ^ 16), None)
       end
  /\ 0 <= pluginapi.resp_Port (fst (fst out)) < 2 ^ 16
  /\ (snd (fst r) = None ->
      0 <= proto.resp_PortNumber resp < 2 ^ 16 ->
      pluginapi.resp_Port (fst (fst out)) = proto.resp_PortNumber resp).
Proof.
  intros W r resp out. unfold pluginapi.wf_PortForwardRequest in W.
  assert (P : proto.PortNumber (pluginapi.pfRequest req) = pluginapi.Port req).
  { simpl. unfold Go.uint32. apply Z.mod_small. lia. }
  assert (O : out = (match snd (fst r) with
                     | Some err => (pluginapi.zero_PortForwardResponse, Some err)
                     | None =>
                         (pluginapi.mkPortForwardResponse
                            (proto.PortForwardID resp)
                            (proto.resp_PortNumber resp mod 2 ^ 16), None)
                     end, pluginapi.mkWorld (snd r) (pluginapi.logs w))).
  { subst out resp r.
    unfold pluginapi.PortForward, pluginapi.bind, pluginapi.rpc.
    now destruct (proto.PortForward _ ctx _ _) as [[resp [err|]] s']. }
  split; [exact P|]. split; [rewrite P; exact W|].
  rewrite O. simpl. split; [reflexivity|]. split; [reflexivity|].
  split.
  - destruct (snd (fst r)); simpl; [lia|]. apply Z.mod_pos_bound. lia.
  - intros -> B. simpl. apply Z.mod_small, B.
Qed.

End ClientFacts.

(** ** The statements at work on the doubles *)

(** A second list after a first one was pushed: the cycle pushes, since
    the serializations differ. *)
Lemma runUpdate_pushes_iff_serialization_changed_witness :
  api.namespacesGeneratorFunc fake.manager (fake.returns ["kube-system"%string])
    (api.config fake.manager)
  = (Go.mk_strings ["kube-system"%string], None)
  /\ Err (fake.returns ["kube-system"%string]) = None
  /\ (api.sent
        (snd (api.runUpdate json.Marshal fake.manager
                (fake.returns ["kube-system"%string])
                (api.cycles (api.runUpdate json.Marshal fake.manager)
                   [fake.returns ["default"%string]; fake.fails "timeout"]
                   api.initial)))
      = api.sent
          (api.cycles (api.runUpdate json.Marshal fake.manager)
             [fake.returns ["default"%string]; fake.fails "timeout"]
             api.initial)
        ++ [api.CreateNamespacesEvent (Go.mk_strings ["kube-system"%string])]
      <-> fst (json.Marshal (Go.mk_strings ["kube-system"%string]))
          <> api.last_pushed json.Marshal
               (api.cycles (api.runUpdate json.Marshal fake.manager)
                  [fake.returns ["default"%string]; fake.fails "timeout"]
                  api.initial)).
Proof.
  split; [reflexivity|]. split; [reflexivity|].
  exact (proj1 (runUpdate_pushes_iff_serialization_changed
                  fake.manager
                  [fake.returns ["default"%string]; fake.fails "timeout"]
                  (fake.returns ["kube-system"%string])
                  (Go.mk_strings ["kube-system"%string])
                  eq_refl eq_refl)).
Defined.

Lemma first_success_pushes_namespaces_event_witness :
  api.previous api.initial = []
  /\ api.namespacesGeneratorFunc fake.manager (fake.returns ["default"%string])
       (api.config fake.manager)
     = (Go.mk_strings ["default"%string], None)
  /\ Err (fake.returns ["default"%string]) = None
  /\ exists ev : octant.Event,
       api.sent (snd (api.runUpdate json.Marshal fake.manager
                        (fake.returns ["default"%string]) api.initial))
       = api.sent api.initial ++ [ev]
       /\ octant.Event_Type ev = "namespaces"%string
       /\ octant.Event_Data ev
          = {[ "namespaces"%string
               := octant.any_strings (Go.mk_strings ["default"%string]) ]}
       /\ api.previous (snd (api.runUpdate json.Marshal fake.manager
                               (fake.returns ["default"%string]) api.initial))
          = fst (json.Marshal (Go.mk_strings ["default"%string])).
Proof.
  split; [reflexivity|]. split; [reflexivity|]. split; [reflexivity|].
  exact (first_success_pushes_namespaces_event
           fake.manager (fake.returns ["default"%string])
           (Go.mk_strings ["default"%string]) api.initial
           eq_refl eq_refl eq_refl).
Defined.


Lemma NamespacesGenerator_falls_back_to_initial_namespace_witness :
  cluster.NamespaceClient (api.ClusterClient fake.cluster_without_list)
  = (fst (cluster.NamespaceClient (api.ClusterClient fake.cluster_without_list)),
     None)
  /\ cluster.Names
       (fst (cluster.NamespaceClient (api.ClusterClient fake.cluster_without_list)))
     = (Go.nil_strings, Some (Go.errors_New "forbidden"))
  /\ api.NamespacesGenerator tt (Some fake.cluster_without_list)
     = (Go.mk_strings ["default"%string], None).
Proof.
  split; [reflexivity|]. split; [reflexivity|].
  exact (NamespacesGenerator_falls_back_to_initial_namespace
           tt fake.cluster_without_list
           (fst (cluster.NamespaceClient
                   (api.ClusterClient fake.cluster_without_list)))
           Go.nil_strings (Go.errors_New "forbidden") eq_refl eq_refl).
Defined.

Lemma reordered_list_is_pushed_again_witness :
  api.previous api.initial = []
  /\ api.namespacesGeneratorFunc fake.manager (fake.returns ["a"; "b"]%string)
       (api.config fake.manager)
     = (Go.mk_strings ["a"; "b"]%string, None)
  /\ api.namespacesGeneratorFunc fake.manager (fake.returns ["b"; "a"]%string)
       (api.config fake.manager)
     = (Go.mk_strings ["b"; "a"]%string, None)
  /\ Err (fake.returns ["a"; "b"]%string) = None
  /\ Err (fake.returns ["b"; "a"]%string) = None
  /\ api.cycles (api.runUpdate json.Marshal fake.manager)
       [fake.returns ["a"; "b"]%string; fake.returns ["a"; "b"]%string;
        fake.returns ["b"; "a"]%string] api.initial
     = snd (api.runUpdate json.Marshal fake.manager
              (fake.returns ["b"; "a"]%string)
              (snd (api.runUpdate json.Marshal fake.manager
                      (fake.returns ["a"; "b"]%string)
                      (snd (api.runUpdate json.Marshal fake.manager
                              (fake.returns ["a"; "b"]%string) api.initial))))).
Proof.
  split; [reflexivity|]. split; [reflexivity|]. split; [reflexivity|].
  split; [reflexivity|]. split; [reflexivity|].
  exact (proj1 (proj2 (proj2 (proj2
           (reordered_list_is_pushed_again fake.manager
              (fake.returns ["a"; "b"]%string) (fake.returns ["a"; "b"]%string)
              (fake.returns ["b"; "a"]%string) api.initial
              eq_refl eq_refl eq_refl eq_refl eq_refl eq_refl eq_refl))))).
Defined.

Lemma done_context_leaves_baseline_witness :
  api.namespacesGeneratorFunc fake.manager
    (fake.returns_cancelled ["default"%string]) (api.config fake.manager)
  = (Go.mk_strings ["default"%string], None)
  /\ Err (fake.returns_cancelled ["default"%string])
     = Some (Go.errors_New "context canceled")
  /\ api.runUpdate json.Marshal fake.manager
       (fake.returns_cancelled ["default"%string]) api.initial
     = (false, api.initial).
Proof.
  split; [reflexivity|]. split; [reflexivity|].
  exact (done_context_leaves_baseline json.Marshal fake.manager
           (fake.returns_cancelled ["default"%string]) api.initial
           (Go.mk_strings ["default"%string])
           (Go.errors_New "context canceled") eq_refl eq_refl).
Defined.

Lemma Get_absent_is_not_an_error_witness :
  fake.convertFromKey "pods/none" = ("pods/none"%string, None)
  /\ proto.Get (fake.stub 8080) tt "pods/none"%string
       (pluginapi.remote fake.fresh)
     = (proto.mkGetResponse EmptyString, None, [fake.CallGet "pods/none"])
  /\ fake.convertToObject (proto.Object (proto.mkGetResponse EmptyString))
     = (None, false, None)
  /\ fake.Get 8080 "pods/none" fake.fresh
     = (None, false, None,
        pluginapi.mkWorld [fake.CallGet "pods/none"] []).
Proof.
  split; [reflexivity|]. split; [reflexivity|]. split; [reflexivity|].
  exact (proj1 (Get_absent_is_not_an_error
                  fake.convertFromKey fake.convertToObject
                  (fake.client 8080) tt "pods/none"%string "pods/none"%string
                  fake.fresh (proto.mkGetResponse EmptyString)
                  [fake.CallGet "pods/none"] None
                  eq_refl eq_refl eq_refl)).
Defined.

Lemma Update_conversion_failure_makes_no_call_witness :
  fake.convertFromObject None
  = (EmptyString, Some (Go.errors_New "object is nil"))
  /\ fake.Update 8080 None fake.fresh
     = (Some (Go.errors_New "object is nil"), fake.fresh)
  /\ pluginapi.remote (snd (fake.Update 8080 None fake.fresh)) = [].
Proof.
  split; [reflexivity|].
  assert (E := Update_conversion_failure_makes_no_call
                 fake.convertFromObject (fake.client 8080) tt None
                 EmptyString (Go.errors_New "object is nil") fake.fresh
                 eq_refl).
  split; [exact E|]. unfold fake.Update. rewrite E. reflexivity.
Defined.

Lemma PortForward_ports_witness :
  pluginapi.wf_PortForwardRequest
    (pluginapi.mkPortForwardRequest "default" "web-0" 8080)
  /\ proto.PortNumber
       (pluginapi.pfRequest
          (pluginapi.mkPortForwardRequest "default" "web-0" 8080))
     = 8080
  /\ fst (fake.PortForward 41573
            (pluginapi.mkPortForwardRequest "default" "web-0" 8080)
            fake.fresh)
     = (pluginapi.mkPortForwardResponse "pf-1" (41573 mod 2 ^ 16), None).
Proof.
  assert (W : pluginapi.wf_PortForwardRequest
                (pluginapi.mkPortForwardRequest "default" "web-0" 8080))
    by (unfold pluginapi.wf_PortForwardRequest; simpl; lia).
  split; [exact W|].
  destruct (PortForward_ports (fake.client 41573) tt
              (pluginapi.mkPortForwardRequest "default" "web-0" 8080)
              fake.fresh W) as (P & _ & _ & O & _).
  split; [exact P | exact O].
Defined.

(** C9 as it is written fails: for the request of port 8080 on pod
    [web-0], an extension that allocates the local port 70000 (a value
    of the 32-bit wire field) is answered without error, and the
    response carries the port 4464, not the allocated one. *)
Lemma PortForward_truncates_allocated_port :
  pluginapi.wf_PortForwardRequest
    (pluginapi.mkPortForwardRequest "default" "web-0" 8080)
  /\ proto.PortForward (fake.stub 70000) tt
       (pluginapi.pfRequest
          (pluginapi.mkPortForwardRequest "default" "web-0" 8080)) []
     = (proto.mkPortForwardResponse "pf-1" 70000, None,
        [fake.CallPortForward
           (proto.mkPortForwardRequest "default" "web-0" 8080)])
  /\ fst (fake.PortForward 70000
            (pluginapi.mkPortForwardRequest "default" "web-0" 8080)
            fake.fresh)
     = (pluginapi.mkPortForwardResponse "pf-1" 4464, None)
  /\ pluginapi.resp_Port
       (fst (fst (fake.PortForward 70000
                    (pluginapi.mkPortForwardRequest "default" "web-0" 8080)
                    fake.fresh)))
     <> 70000.
Proof.
  split; [unfold pluginapi.wf_PortForwardRequest; simpl; lia|].
  split; [reflexivity|]. split; [reflexivity|].
  vm_compute. discriminate.
Qed.

(** * Further properties *)

(** ** The poll closure over a run *)

Section ManagerRuns.

Context {C : Type} `{context_Context C}.
Variable Marshal : Go.strings -> Go.bytes * option Go.error.
Variable n : api.NamespacesManager (C := C).

Local Abbreviation generate ctx :=
  (api.namespacesGeneratorFunc n ctx (api.config n)).
Local Abbreviation poll := (api.runUpdate Marshal n).

(** X1: the closure returns [false] on every path: it never asks the
    poller to stop, whatever the generator, the context and the
    serialization answer. *)
Theorem runUpdate_never_stops_the_poller (ctx : C) (st : api.State) :
  fst (poll ctx st) = false.
Proof. apply runUpdate_false. Qed.

(** The three ways of a cycle. *)
Lemma runUpdate_three_ways (ctx : C) (st : api.State) :
  poll ctx st = (false, st)
  \/ (exists (e : Go.error) (msg : string),
        poll ctx st = (false, api.Errorf (Some e) msg st))
  \/ (exists (ns : Go.strings) (cur : Go.bytes),
        generate ctx = (ns, None)
        /\ Err ctx = None
        /\ Marshal ns = (cur, None)
        /\ cur <> api.previous st
        /\ poll ctx st
           = (false, api.Send (api.CreateNamespacesEvent ns)
                       (api.set_previous cur st))).
Proof.
  destruct (generate ctx) as [ns [e|]] eqn:G.
  { right; left. exists e, "load namespaces"%string.
    apply (runUpdate_generator_failed _ _ _ _ _ _ G). }
  destruct (Err ctx) as [e|] eqn:D.
  { left. apply (runUpdate_done _ _ _ _ _ _ G D). }
  destruct (Marshal ns) as [cur [e|]] eqn:S.
  { right; left. exists e, "unable to marshal namespaces"%string.
    apply (runUpdate_marshal_failed _ _ _ _ _ _ _ G D S). }
  destruct (bytes_eq_dec cur (api.previous st)) as [E|N].
  - left. rewrite E in S. apply (runUpdate_unchanged _ _ _ _ _ G D S).
  - right; right. exists ns, cur. repeat split; try assumption.
    apply (runUpdate_changed _ _ _ _ _ _ G D S N).
Qed.

(** X2: a cycle does one of three things: nothing; or it writes one log
    entry and touches neither sink nor baseline; or, the generator and
    the serialization having succeeded with a context that is not done
    and a serialization other than the baseline, it sends one event and
    sets the baseline, and logs nothing. *)
Theorem runUpdate_logs_or_pushes (ctx : C) (st : api.State) :
  poll ctx st = (false, st)
  \/ (exists (e : Go.error) (msg : string),
        poll ctx st = (false, api.Errorf (Some e) msg st))
  \/ (exists (ns : Go.strings) (cur : Go.bytes),
        generate ctx = (ns, None)
        /\ Err ctx = None
        /\ Marshal ns = (cur, None)
        /\ cur <> api.previous st
        /\ poll ctx st
           = (false, api.Send (api.CreateNamespacesEvent ns)
                       (api.set_previous cur st))).
Proof. exact (runUpdate_three_ways ctx st). Qed.

(** X3: sink and log only grow: a run appends events to the sink and
    entries to the log, together no more than one per cycle. *)
Theorem cycles_only_append (ctxs : list C) (st : api.State) :
  exists (evs : list octant.Event) (entries : list Go.LogEntry),
    api.sent (api.cycles poll ctxs st) = api.sent st ++ evs
    /\ api.logged (api.cycles poll ctxs st) = api.logged st ++ entries
    /\ (length evs + length entries <= length ctxs)%nat.
Proof.
  revert st. induction ctxs as [|ctx ctxs IH]; intros st; simpl.
  { exists [], []. now rewrite !app_nil_r. }
  destruct (IH (snd (poll ctx st))) as (evs & entries & Es & El & Hlen).
  rewrite Es, El.
  destruct (runUpdate_three_ways ctx st)
    as [-> | [(e & msg & ->) | (ns & cur & _ & _ & _ & _ & ->)]]; simpl.
  - exists evs, entries. repeat split; try reflexivity. lia.
  - exists evs, ({| Go.entry_err := Some e; Go.entry_msg := msg |} :: entries).
    rewrite <- app_assoc. simpl. repeat split; try reflexivity. lia.
  - exists (api.CreateNamespacesEvent ns :: evs), entries.
    rewrite <- app_assoc. simpl. repeat split; try reflexivity. lia.
Qed.

(** No two neighbours of the sink have one serialization. *)
Local Abbreviation distinct_neighbours st :=
  (forall (i : nat) (e1 e2 : octant.Event),
      api.sent st !! i = Some e1 -> api.sent st !! S i = Some e2 ->
      api.serialization Marshal e1 <> api.serialization Marshal e2).

Lemma distinct_neighbours_runUpdate (ctx : C) (st : api.State) :
  api.baseline_ok Marshal st -> distinct_neighbours st ->
  distinct_neighbours (snd (poll ctx st)).
Proof.
  intros B A.
  destruct (runUpdate_three_ways ctx st)
    as [-> | [(e & msg & ->) | (ns & cur & _ & _ & HS & N & ->)]]; simpl;
    try exact A.
  intros i e1 e2 H1 H2.
  destruct (Nat.lt_ge_cases (S i) (length (api.sent st))) as [Hlt | Hge].
  - rewrite lookup_app_l in H1 by lia. rewrite lookup_app_l in H2 by lia.
    exact (A i e1 e2 H1 H2).
  - rewrite lookup_app_r in H2 by lia.
    destruct (S i - length (api.sent st))%nat as [|k] eqn:Hk;
      [|destruct k; discriminate].
    assert (Hi : length (api.sent st) = S i) by lia.
    simpl in H2. injection H2 as <-.
    rewrite lookup_app_l in H1 by lia.
    unfold api.baseline_ok, api.last_pushed in B.
    rewrite last_lookup, Hi in B. simpl in B. rewrite H1 in B.
    unfold api.serialization at 2. rewrite event_namespaces_Create, HS. simpl.
    unfold api.serialization. rewrite <- B. congruence.
Qed.

Lemma distinct_neighbours_cycles (ctxs : list C) (st : api.State) :
  api.baseline_ok Marshal st -> distinct_neighbours st ->
  distinct_neighbours (api.cycles poll ctxs st).
Proof.
  revert st. induction ctxs as [|ctx ctxs IH]; intros st B A; simpl;
    [exact A|].
  apply IH.
  - apply baseline_ok_runUpdate, B.
  - apply distinct_neighbours_runUpdate; assumption.
Qed.

(** X4: in the sink of a run of a new closure, an event and the next one
    never have the same serialization: nothing is pushed twice in a
    row. *)
Theorem sink_never_repeats_a_serialization
    (ctxs : list C) (i : nat) (e1 e2 : octant.Event) :
  api.sent (api.cycles poll ctxs api.initial) !! i = Some e1 ->
  api.sent (api.cycles poll ctxs api.initial) !! S i = Some e2 ->
  api.serialization Marshal e1 <> api.serialization Marshal e2.
Proof.
  apply distinct_neighbours_cycles.
  - apply baseline_ok_initial.
  - intros j a b Ha. discriminate Ha.
Qed.

(** X5: every event a run adds to the sink is the namespaces event of
    the list the generator returned, without error, in one of the cycles
    of the run whose context was not done. *)
Theorem pushed_events_come_from_generated_lists
    (ctxs : list C) (st : api.State) (ev : octant.Event) :
  In ev (api.sent (api.cycles poll ctxs st)) ->
  In ev (api.sent st)
  \/ exists (ctx : C) (ns : Go.strings),
       In ctx ctxs /\ generate ctx = (ns, None) /\ Err ctx = None
       /\ ev = api.CreateNamespacesEvent ns.
Proof.
  revert st. induction ctxs as [|ctx ctxs IH]; intros st; simpl;
    [now left|].
  intros Hin. destruct (IH _ Hin) as [Hst | (c & ns & Hc & G & D & ->)].
  - destruct (runUpdate_three_ways ctx st)
      as [E | [(e & msg & E) | (ns & cur & G & D & _ & _ & E)]];
      rewrite E in Hst; simpl in Hst; try (now left).
    apply in_app_or in Hst as [Hst | [<- | []]]; [now left|].
    right. exists ctx, ns. repeat split; try assumption. now left.
  - right. exists c, ns. repeat split; try assumption. now right.
Qed.

(** What the closure reads of the state: the baseline and, to append to
    it, the sink. *)
Lemma runUpdate_reads_baseline_and_sink (ctx : C) (st1 st2 : api.State) :
  api.previous st1 = api.previous st2 -> api.sent st1 = api.sent st2 ->
  api.previous (snd (poll ctx st1)) = api.previous (snd (poll ctx st2))
  /\ api.sent (snd (poll ctx st1)) = api.sent (snd (poll ctx st2)).
Proof.
  intros Ep Es. unfold api.runUpdate.
  destruct (generate ctx) as [ns [e|]]; simpl; [now split|].
  destruct (Err ctx); simpl; [now split|].
  destruct (Marshal ns) as [cur [e|]]; simpl; [now split|].
  rewrite Ep. destruct (negb _); simpl; [|now split].
  now rewrite Es.
Qed.

Lemma cycles_read_baseline_and_sink (ctxs : list C) (st1 st2 : api.State) :
  api.previous st1 = api.previous st2 -> api.sent st1 = api.sent st2 ->
  api.previous (api.cycles poll ctxs st1) = api.previous (api.cycles poll ctxs st2)
  /\ api.sent (api.cycles poll ctxs st1) = api.sent (api.cycles poll ctxs st2).
Proof.
  revert st1 st2. induction ctxs as [|ctx ctxs IH]; intros st1 st2 Ep Es;
    simpl; [now split|].
  destruct (runUpdate_reads_baseline_and_sink ctx st1 st2 Ep Es) as [Ep' Es'].
  now apply IH.
Qed.

Lemma skipped_cycle_keeps_baseline_and_sink (ctx : C) (st : api.State) :
  api.reaches_comparison n ctx = false ->
  api.previous (snd (poll ctx st)) = api.previous st
  /\ api.sent (snd (poll ctx st)) = api.sent st.
Proof.
  unfold api.reaches_comparison, api.generator_failed, api.runUpdate.
  destruct (generate ctx) as [ns [e|]]; simpl; [now split|].
  destruct (Err ctx); simpl; [now split | discriminate].
Qed.

(** X6: the cycles in which the generator fails or the context is done
    have no part in what is pushed: the sink and the baseline after a
    run are those of the run without these cycles. *)
Theorem skipped_cycles_do_not_change_the_pushes
    (ctxs : list C) (st : api.State) :
  api.sent (api.cycles poll ctxs st)
  = api.sent (api.cycles poll (List.filter (api.reaches_comparison n) ctxs) st)
  /\ api.previous (api.cycles poll ctxs st)
     = api.previous
         (api.cycles poll (List.filter (api.reaches_comparison n) ctxs) st).
Proof.
  revert st. induction ctxs as [|ctx ctxs IH]; intros st; simpl;
    [now split|].
  destruct (api.reaches_comparison n ctx) eqn:R; simpl; [apply IH|].
  destruct (IH (snd (poll ctx st))) as [Es Ep]. rewrite Es, Ep.
  destruct (skipped_cycle_keeps_baseline_and_sink ctx st R) as [Kp Ks].
  destruct (cycles_read_baseline_and_sink
              (List.filter (api.reaches_comparison n) ctxs)
              (snd (poll ctx st)) st Kp Ks) as [Fp Fs].
  now split.
Qed.

End ManagerRuns.

(** ** The log, the default generator and the options *)

Lemma runUpdate_json_log
    {C : Type} `{context_Context C}
    (n : api.NamespacesManager) (ctx : C) (st : api.State) :
  api.logged (snd (api.runUpdate json.Marshal n ctx st))
  = api.logged st ++ api.generator_entries n ctx.
Proof.
  unfold api.generator_entries.
  destruct (api.namespacesGeneratorFunc n ctx (api.config n))
    as [ns [e|]] eqn:G; simpl.
  { now rewrite (runUpdate_generator_failed _ _ _ _ _ _ G). }
  rewrite app_nil_r.
  destruct (Err ctx) as [e|] eqn:D.
  { now rewrite (runUpdate_done _ _ _ _ _ _ G D). }
  destruct (bytes_eq_dec (fst (json.Marshal ns)) (api.previous st)) as [E|N].
  - pose proof (Marshal_pair ns) as P. rewrite E in P.
    now rewrite (runUpdate_unchanged _ _ _ _ _ G D P).
  - now rewrite (runUpdate_changed _ _ _ _ _ _ G D (Marshal_pair ns) N).
Qed.

(** X7: with [json.Marshal], the log of a run grows by exactly one
    [load namespaces] entry per cycle in which the generator failed, in
    the order of the cycles and each with the error of its cycle; a
    cycle that pushes, finds nothing new or finds its context done logs
    nothing. *)
Theorem log_holds_the_generator_failures
    {C : Type} `{context_Context C}
    (n : api.NamespacesManager) (ctxs : list C) (st : api.State) :
  api.logged (api.cycles (api.runUpdate json.Marshal n) ctxs st)
  = api.logged st ++ flat_map (api.generator_entries n) ctxs.
Proof.
  revert st. induction ctxs as [|ctx ctxs IH]; intros st; simpl.
  - now rewrite app_nil_r.
  - now rewrite IH, runUpdate_json_log, <- app_assoc.
Qed.

(** X8: the default generator returns an error exactly when the
    configuration is nil or the namespace client cannot be obtained;
    the list is then nil and the message is [namespaces manager config
    is nil], respectively the cause prefixed with [retrieve namespaces
    client]; a failing listing call is never among the errors, and a
    listing that succeeds is returned as it is. *)
Theorem NamespacesGenerator_errors
    {C : Type} (ctx : C) (config : option api.NamespaceManagerConfig) :
  (snd (api.NamespacesGenerator ctx config) = None
   <-> exists cfg : api.NamespaceManagerConfig,
         config = Some cfg
         /\ snd (cluster.NamespaceClient (api.ClusterClient cfg)) = None)
  /\ (forall e : Go.error,
        snd (api.NamespacesGenerator ctx config) = Some e ->
        fst (api.NamespacesGenerator ctx config) = Go.nil_strings
        /\ match config with
           | None => Go.Error e = "namespaces manager config is nil"%string
           | Some cfg =>
               exists cause : Go.error,
                 snd (cluster.NamespaceClient (api.ClusterClient cfg))
                 = Some cause
                 /\ Go.Error e
                    = ("retrieve namespaces client: " ++ Go.Error cause)%string
           end)
  /\ (forall (cfg : api.NamespaceManagerConfig) (names : Go.strings),
        config = Some cfg ->
        snd (cluster.NamespaceClient (api.ClusterClient cfg)) = None ->
        cluster.Names (fst (cluster.NamespaceClient (api.ClusterClient cfg)))
        = (names, None) ->
        api.NamespacesGenerator ctx config = (names, None)).
Proof.
  unfold api.NamespacesGenerator. destruct config as [cfg|].
  - destruct (cluster.NamespaceClient (api.ClusterClient cfg))
      as [nc [cause|]] eqn:Hc; simpl.
    + split; [|split].
      * split; [discriminate|]. intros (cfg' & [= <-] & Hn).
        rewrite Hc in Hn. discriminate.
      * intros e [= <-]. split; [reflexivity|]. now exists cause.
      * intros cfg' names [= <-]. rewrite Hc. discriminate.
    + split; [|split].
      * destruct (cluster.Names nc) as [names [e|]]; simpl;
          (split; [intros _; exists cfg; now rewrite Hc | reflexivity]).
      * intros e. destruct (cluster.Names nc) as [names [e'|]]; discriminate.
      * intros cfg' names [= <-]. rewrite Hc. simpl. intros _ ->. reflexivity.
  - simpl. split; [|split].
    + split; [discriminate|]. intros (cfg & Hcfg & _). discriminate.
    + intros e [= <-]. now split.
    + intros cfg names Hcfg. discriminate.
Qed.

(** X9: a manager with the default generator, on a cluster whose
    namespace client is obtained but whose listing fails, pushes in its
    first cycle the event of the one-element list of the initial
    namespace, and logs nothing: the failure of the listing leaves no
    trace. *)
Theorem default_manager_pushes_the_initial_namespace
    {C : Type} `{context_Context C}
    (ctx : C) (config : api.NamespaceManagerConfig)
    (namespaceClient : cluster.NamespaceInterface)
    (names : Go.strings) (e : Go.error) (st : api.State) :
  cluster.NamespaceClient (api.ClusterClient config) = (namespaceClient, None) ->
  cluster.Names namespaceClient = (names, Some e) ->
  Err ctx = None ->
  api.previous st = [] ->
  let initial := Go.mk_strings [cluster.InitialNamespace namespaceClient] in
  api.runUpdate json.Marshal (api.NewNamespacesManager (Some config)) ctx st
  = (false,
     api.mkState (fst (json.Marshal initial))
       (api.sent st ++ [api.CreateNamespacesEvent initial])
       (api.logged st)).
Proof.
  intros Hc Hn D B initial.
  assert (G : api.namespacesGeneratorFunc
                (api.NewNamespacesManager (C := C) (Some config)) ctx
                (api.config (api.NewNamespacesManager (C := C) (Some config)))
              = (initial, None)).
  { simpl. unfold api.NamespacesGenerator. now rewrite Hc, Hn. }
  rewrite (runUpdate_changed _ _ _ _ _ _ G D (Marshal_pair initial));
    [reflexivity|].
  rewrite B. apply Marshal_not_empty.
Qed.

(** X10: a manager built on a nil configuration with the default
    generator never pushes: over any run the sink and the baseline stay
    as they were, and every cycle logs the nil-configuration error. *)
Theorem nil_config_manager_only_logs
    {C : Type} `{context_Context C}
    (Marshal : Go.strings -> Go.bytes * option Go.error)
    (ctxs : list C) (st : api.State) :
  api.cycles (api.runUpdate Marshal (api.NewNamespacesManager None)) ctxs st
  = api.mkState (api.previous st) (api.sent st)
      (api.logged st
       ++ repeat (Go.mkLogEntry
                    (Some (Go.errors_New "namespaces manager config is nil"))
                    "load namespaces")
                 (length ctxs)).
Proof.
  revert st. induction ctxs as [|ctx ctxs IH]; intros st; simpl.
  - rewrite app_nil_r. now destruct st.
  - rewrite IH. simpl. now rewrite <- app_assoc.
Qed.

(** X11: the options of [NewNamespacesManager] are applied in their
    order to the manager with the default generator: without options the
    generator is [NamespacesGenerator]; a generator option placed last
    decides the generator, whatever came before, and keeps the
    configuration the earlier options left. *)
Theorem last_generator_option_wins
    {C : Type} (config : option api.NamespaceManagerConfig)
    (options : list (api.NamespacesManagerOption (C := C)))
    (fn : api.NamespacesGenerateFunc (C := C)) :
  api.NewNamespacesManagerWith (C := C) config []
  = api.mkNamespacesManager config api.NamespacesGenerator
  /\ api.namespacesGeneratorFunc
       (api.NewNamespacesManagerWith config
          (options ++ [api.WithNamespacesGenerator fn]))
     = fn
  /\ api.config
       (api.NewNamespacesManagerWith config
          (options ++ [api.WithNamespacesGenerator fn]))
     = api.config (api.NewNamespacesManagerWith config options).
Proof.
  unfold api.NewNamespacesManagerWith. rewrite fold_left_app. simpl.
  now repeat split.
Qed.

(** ** The dashboard client: errors, calls and the log *)

Section ClientCalls.

Context {C Key KeyRequest Unstructured UnstructuredList WireObject S : Type}.
Variable convertFromKey : Key -> KeyRequest * option Go.error.
Variable convertToObjects :
  list WireObject -> option UnstructuredList * option Go.error.
Variable convertToObject :
  WireObject -> option Unstructured * bool * option Go.error.
Variable convertFromObject :
  option Unstructured -> WireObject * option Go.error.

Local Abbreviation stub_of c :=
  (pluginapi.conn_Client (pluginapi.DashboardConnection_ c)).
Local Abbreviation List := (pluginapi.List convertFromKey convertToObjects).
Local Abbreviation Get := (pluginapi.Get convertFromKey convertToObject).
Local Abbreviation Update := (pluginapi.Update convertFromObject).

Ltac run_client :=
  unfold pluginapi.List, pluginapi.Get, pluginapi.Update,
    pluginapi.PortForward, pluginapi.CancelPortForward,
    pluginapi.ForceFrontendUpdate, pluginapi.Close,
    pluginapi.bind, pluginapi.rpc, pluginapi.ret, pluginapi.Errorf.

(** X12: a key that does not convert stops [List] and [Get] before any
    remote call: the error of the conversion is returned with a nil
    result ([found] false for [Get]) and the connection is as before. *)
Theorem key_conversion_failure_makes_no_call
    (c : pluginapi.Client C KeyRequest WireObject S) (ctx : C) (key : Key)
    (keyRequest : KeyRequest) (e : Go.error) (w : pluginapi.World S) :
  convertFromKey key = (keyRequest, Some e) ->
  List c ctx key w = (None, Some e, w)
  /\ Get c ctx key w = (None, false, Some e, w).
Proof. intros K. run_client. now rewrite K. Qed.

(** X13: [List], [Get] and [PortForward] never return a result next to
    an error: with a non-nil error the list is nil, the object is nil
    and [found] is false, the port forward response is the zero
    response.  In particular [found = true] comes without error. *)
Theorem client_errors_come_with_zero_results
    (c : pluginapi.Client C KeyRequest WireObject S) (ctx : C) (key : Key)
    (req : pluginapi.PortForwardRequest) (w : pluginapi.World S) :
  (snd (fst (List c ctx key w)) <> None -> fst (fst (List c ctx key w)) = None)
  /\ (snd (fst (Get c ctx key w)) <> None ->
      fst (fst (fst (Get c ctx key w))) = None
      /\ snd (fst (fst (Get c ctx key w))) = false)
  /\ (snd (fst (fst (Get c ctx key w))) = true ->
      snd (fst (Get c ctx key w)) = None)
  /\ (snd (fst (pluginapi.PortForward c ctx req w)) <> None ->
      fst (fst (pluginapi.PortForward c ctx req w))
      = pluginapi.zero_PortForwardResponse).
Proof.
  run_client. split; [|split; [|split]].
  - destruct (convertFromKey key) as [kr [e|]]; [reflexivity|].
    destruct (proto.List _ ctx kr _) as [[resp [e|]] s']; [reflexivity|].
    destruct (convertToObjects _) as [objects [e|]]; [reflexivity|].
    simpl. intros E. now contradiction E.
  - destruct (convertFromKey key) as [kr [e|]]; [now split|].
    destruct (proto.Get _ ctx kr _) as [[resp [e|]] s']; [now split|].
    destruct (convertToObject _) as [[object found] [e|]]; [now split|].
    simpl. intros E. now contradiction E.
  - destruct (convertFromKey key) as [kr [e|]]; [discriminate|].
    destruct (proto.Get _ ctx kr _) as [[resp [e|]] s']; [discriminate|].
    destruct (convertToObject _) as [[object found] [e|]]; [discriminate|].
    reflexivity.
  - destruct (proto.PortForward _ ctx _ _) as [[resp [e|]] s'];
      [reflexivity|]. simpl. intros E. now contradiction E.
Qed.

(** X14: of the methods of the client, [CancelPortForward] alone writes
    to the log: [Close], [List], [Get], [Update], [PortForward] and
    [ForceFrontendUpdate] leave it as it was, also when they fail. *)
Theorem only_CancelPortForward_logs
    (c : pluginapi.Client C KeyRequest WireObject S) (ctx : C) (key : Key)
    (object : option Unstructured) (req : pluginapi.PortForwardRequest)
    (w : pluginapi.World S) :
  pluginapi.logs (snd (pluginapi.Close c w)) = pluginapi.logs w
  /\ pluginapi.logs (snd (List c ctx key w)) = pluginapi.logs w
  /\ pluginapi.logs (snd (Get c ctx key w)) = pluginapi.logs w
  /\ pluginapi.logs (snd (Update c ctx object w)) = pluginapi.logs w
  /\ pluginapi.logs (snd (pluginapi.PortForward c ctx req w)) = pluginapi.logs w
  /\ pluginapi.logs (snd (pluginapi.ForceFrontendUpdate c ctx w))
     = pluginapi.logs w.
Proof.
  run_client. repeat split.
  - now destruct (pluginapi.conn_Close _ _).
  - destruct (convertFromKey key) as [kr [e|]]; [reflexivity|].
    destruct (proto.List _ ctx kr _) as [[resp [e|]] s']; [reflexivity|].
    now destruct (convertToObjects _) as [objects [e|]].
  - destruct (convertFromKey key) as [kr [e|]]; [reflexivity|].
    destruct (proto.Get _ ctx kr _) as [[resp [e|]] s']; [reflexivity|].
    now destruct (convertToObject _) as [[o found] [e|]].
  - destruct (convertFromObject object) as [data [e|]]; [reflexivity|].
    now destruct (proto.Update _ ctx _ _) as [[resp err] s'].
  - now destruct (proto.PortForward _ ctx _ _) as [[resp [e|]] s'].
  - now destruct (proto.ForceFrontendUpdate _ ctx _ _) as [[resp err] s'].
Qed.

(** X15: no method retries or calls another method of the stub: [List],
    [Get] and [Update] leave the remote side as it was or as one call of
    the stub's method of the same name left it; [PortForward],
    [CancelPortForward] and [ForceFrontendUpdate] leave it as exactly
    one such call left it, made with the request built from the
    arguments. *)
Theorem client_methods_call_the_stub_at_most_once
    (c : pluginapi.Client C KeyRequest WireObject S) (ctx : C) (key : Key)
    (object : option Unstructured) (req : pluginapi.PortForwardRequest)
    (id : string) (w : pluginapi.World S) :
  let s := pluginapi.remote w in
  (pluginapi.remote (snd (List c ctx key w)) = s
   \/ pluginapi.remote (snd (List c ctx key w))
      = snd (proto.List (stub_of c) ctx (fst (convertFromKey key)) s))
  /\ (pluginapi.remote (snd (Get c ctx key w)) = s
      \/ pluginapi.remote (snd (Get c ctx key w))
         = snd (proto.Get (stub_of c) ctx (fst (convertFromKey key)) s))
  /\ (pluginapi.remote (snd (Update c ctx object w)) = s
      \/ pluginapi.remote (snd (Update c ctx object w))
         = snd (proto.Update (stub_of c) ctx
                  (proto.mkUpdateRequest (fst (convertFromObject object))) s))
  /\ pluginapi.remote (snd (pluginapi.PortForward c ctx req w))
     = snd (proto.PortForward (stub_of c) ctx (pluginapi.pfRequest req) s)
  /\ pluginapi.remote (snd (pluginapi.CancelPortForward c ctx id w))
     = snd (proto.CancelPortForward (stub_of c) ctx
              (proto.mkCancelPortForwardRequest id) s)
  /\ pluginapi.remote (snd (pluginapi.ForceFrontendUpdate c ctx w))
     = snd (proto.ForceFrontendUpdate (stub_of c) ctx proto.mkEmpty s).
Proof.
  intros s. subst s. run_client. repeat split.
  - destruct (convertFromKey key) as [kr [e|]]; [now left|]. right. simpl.
    destruct (proto.List _ ctx kr _) as [[resp [e|]] s']; [reflexivity|].
    now destruct (convertToObjects _) as [objects [e|]].
  - destruct (convertFromKey key) as [kr [e|]]; [now left|]. right. simpl.
    destruct (proto.Get _ ctx kr _) as [[resp [e|]] s']; [reflexivity|].
    now destruct (convertToObject _) as [[o found] [e|]].
  - destruct (convertFromObject object) as [data [e|]]; [now left|]. right.
    simpl. now destruct (proto.Update _ ctx _ _) as [[resp err] s'].
  - now destruct (proto.PortForward _ ctx _ _) as [[resp [e|]] s'].
  - now destruct (proto.CancelPortForward _ ctx _ _) as [[resp [e|]] s'].
  - now destruct (proto.ForceFrontendUpdate _ ctx _ _) as [[resp err] s'].
Qed.

(** X16: the session id makes the round trip unchanged: when
    [PortForward] succeeds, cancelling with the [ID] of its response
    sends the extension the very [PortForwardID] it answered with, on
    the connection as the port forward left it. *)
Theorem PortForward_id_cancels_the_session
    (c : pluginapi.Client C KeyRequest WireObject S) (ctx : C)
    (req : pluginapi.PortForwardRequest) (w : pluginapi.World S)
    (resp : proto.PortForwardResponse) (s' : S) :
  proto.PortForward (stub_of c) ctx (pluginapi.pfRequest req)
    (pluginapi.remote w)
  = (resp, None, s') ->
  let opened := pluginapi.PortForward c ctx req w in
  pluginapi.ID (fst (fst opened)) = proto.PortForwardID resp
  /\ pluginapi.remote
       (snd (pluginapi.CancelPortForward c ctx (pluginapi.ID (fst (fst opened)))
               (snd opened)))
     = snd (proto.CancelPortForward (stub_of c) ctx
              (proto.mkCancelPortForwardRequest (proto.PortForwardID resp)) s').
Proof.
  intros R opened.
  assert (O : opened
              = (pluginapi.mkPortForwardResponse (proto.PortForwardID resp)
                   (Go.uint16 (proto.resp_PortNumber resp)), None,
                 pluginapi.mkWorld s' (pluginapi.logs w))).
  { subst opened. run_client. now rewrite R. }
  rewrite O. simpl. split; [reflexivity|].
  run_client. simpl.
  now destruct (proto.CancelPortForward _ ctx _ s') as [[r [e|]] s''].
Qed.

(** X17: [NewClient] returns a client or an error, never both and never
    neither.  When the options leave a connection in the client, that
    connection is kept and nothing is dialled; otherwise the address is
    dialled once, a failure of the dial is the error returned, and a
    dialled connection is wrapped as the default connection. *)
Theorem NewClient_client_or_error
    {D : Type}
    (Dial : string -> D ->
            (pluginapi.grpc_ClientConn C KeyRequest WireObject S
             * option Go.error) * D)
    (address : string)
    (options : list (pluginapi.ClientOption C KeyRequest WireObject S))
    (d : D) :
  let out := pluginapi.NewClient Dial address options d in
  (fst (fst out) = None <-> snd (fst out) <> None)
  /\ match fold_left (fun c option => option c) options None with
     | Some connection =>
         out = (Some (pluginapi.mkClient connection), None, d)
     | None =>
         snd out = snd (Dial address d)
         /\ snd (fst out) = snd (fst (Dial address d))
         /\ (snd (fst out) = None ->
             fst (fst out)
             = Some (pluginapi.mkClient
                       (pluginapi.defaultDashboardConnection
                          (fst (fst (Dial address d))))))
     end.
Proof.
  intros out. subst out. unfold pluginapi.NewClient.
  destruct (fold_left (fun c option => option c) options None)
    as [connection|].
  - simpl. split; [|reflexivity]. split; [discriminate|congruence].
  - destruct (Dial address d) as [[conn [e|]] d']; simpl.
    + repeat split; try reflexivity; try discriminate.
    + repeat split; try reflexivity; try discriminate. congruence.
Qed.

End ClientCalls.

(** ** The further statements at work on the doubles *)

Lemma sink_never_repeats_a_serialization_witness :
  api.sent
    (api.cycles (api.runUpdate json.Marshal fake.manager)
       [fake.returns ["a"%string]; fake.returns ["a"%string];
        fake.fails "timeout"; fake.returns ["b"%string]] api.initial) !! 0%nat
  = Some (api.CreateNamespacesEvent (Go.mk_strings ["a"%string]))
  /\ api.sent
       (api.cycles (api.runUpdate json.Marshal fake.manager)
          [fake.returns ["a"%string]; fake.returns ["a"%string];
           fake.fails "timeout"; fake.returns ["b"%string]] api.initial) !! 1%nat
     = Some (api.CreateNamespacesEvent (Go.mk_strings ["b"%string]))
  /\ api.serialization json.Marshal
       (api.CreateNamespacesEvent (Go.mk_strings ["a"%string]))
     <> api.serialization json.Marshal
          (api.CreateNamespacesEvent (Go.mk_strings ["b"%string])).
Proof.
  split; [reflexivity|]. split; [reflexivity|].
  exact (sink_never_repeats_a_serialization json.Marshal fake.manager
           [fake.returns ["a"%string]; fake.returns ["a"%string];
            fake.fails "timeout"; fake.returns ["b"%string]] 0%nat
           (api.CreateNamespacesEvent (Go.mk_strings ["a"%string]))
           (api.CreateNamespacesEvent (Go.mk_strings ["b"%string]))
           eq_refl eq_refl).
Defined.

Lemma pushed_events_come_from_generated_lists_witness :
  In (api.CreateNamespacesEvent (Go.mk_strings ["default"%string]))
     (api.sent
        (api.cycles (api.runUpdate json.Marshal fake.manager)
           [fake.fails "timeout"; fake.returns ["default"%string]]
           api.initial))
  /\ (In (api.CreateNamespacesEvent (Go.mk_strings ["default"%string]))
         (api.sent api.initial)
      \/ exists (ctx : fake.Cycle) (ns : Go.strings),
           In ctx [fake.fails "timeout"; fake.returns ["default"%string]]
           /\ api.namespacesGeneratorFunc fake.manager ctx
                (api.config fake.manager) = (ns, None)
           /\ Err ctx = None
           /\ api.CreateNamespacesEvent (Go.mk_strings ["default"%string])
              = api.CreateNamespacesEvent ns).
Proof.
  assert (Hin : In (api.CreateNamespacesEvent (Go.mk_strings ["default"%string]))
                  (api.sent
                     (api.cycles (api.runUpdate json.Marshal fake.manager)
                        [fake.fails "timeout"; fake.returns ["default"%string]]
                        api.initial)))
    by (left; reflexivity).
  split; [exact Hin|].
  exact (pushed_events_come_from_generated_lists json.Marshal fake.manager
           [fake.fails "timeout"; fake.returns ["default"%string]]
           api.initial _ Hin).
Defined.

Lemma default_manager_pushes_the_initial_namespace_witness :
  cluster.NamespaceClient (api.ClusterClient fake.cluster_without_list)
  = (fst (cluster.NamespaceClient (api.ClusterClient fake.cluster_without_list)),
     None)
  /\ cluster.Names
       (fst (cluster.NamespaceClient (api.ClusterClient fake.cluster_without_list)))
     = (Go.nil_strings, Some (Go.errors_New "forbidden"))
  /\ Err (fake.returns []) = None
  /\ api.previous api.initial = []
  /\ api.runUpdate json.Marshal
       (fake.cluster_manager (Some fake.cluster_without_list))
       (fake.returns []) api.initial
     = (false,
        api.mkState (fst (json.Marshal (Go.mk_strings ["default"%string])))
          [api.CreateNamespacesEvent (Go.mk_strings ["default"%string])] []).
Proof.
  split; [reflexivity|]. split; [reflexivity|]. split; [reflexivity|].
  split; [reflexivity|].
  exact (default_manager_pushes_the_initial_namespace
           (fake.returns []) fake.cluster_without_list
           (fst (cluster.NamespaceClient
                   (api.ClusterClient fake.cluster_without_list)))
           Go.nil_strings (Go.errors_New "forbidden") api.initial
           eq_refl eq_refl eq_refl eq_refl).
Defined.

Lemma key_conversion_failure_makes_no_call_witness :
  fake.convertFromKey EmptyString
  = (EmptyString, Some (Go.errors_New "empty key"))
  /\ fake.List 8080 EmptyString fake.fresh
     = (None, Some (Go.errors_New "empty key"), fake.fresh)
  /\ fake.Get 8080 EmptyString fake.fresh
     = (None, false, Some (Go.errors_New "empty key"), fake.fresh).
Proof.
  split; [reflexivity|].
  exact (key_conversion_failure_makes_no_call
           fake.convertFromKey fake.convertToObjects fake.convertToObject
           (fake.client 8080) tt EmptyString EmptyString
           (Go.errors_New "empty key") fake.fresh eq_refl).
Defined.

Lemma PortForward_id_cancels_the_session_witness :
  proto.PortForward (fake.stub 41573) tt
    (pluginapi.pfRequest
       (pluginapi.mkPortForwardRequest "default" "web-0" 8080)) []
  = (proto.mkPortForwardResponse "pf-1" 41573, None,
     [fake.CallPortForward (proto.mkPortForwardRequest "default" "web-0" 8080)])
  /\ pluginapi.remote
       (snd (fake.CancelPortForward 41573
               (pluginapi.ID
                  (fst (fst (fake.PortForward 41573
                               (pluginapi.mkPortForwardRequest
                                  "default" "web-0" 8080) fake.fresh))))
               (snd (fake.PortForward 41573
                       (pluginapi.mkPortForwardRequest "default" "web-0" 8080)
                       fake.fresh))))
     = [fake.CallPortForward (proto.mkPortForwardRequest "default" "web-0" 8080);
        fake.CallCancelPortForward "pf-1"].
Proof.
  split; [reflexivity|].
  exact (proj2 (PortForward_id_cancels_the_session
                  (fake.client 41573) tt
                  (pluginapi.mkPortForwardRequest "default" "web-0" 8080)
                  fake.fresh (proto.mkPortForwardResponse "pf-1" 41573)
                  [fake.CallPortForward
                     (proto.mkPortForwardRequest "default" "web-0" 8080)]
                  eq_refl)).
Defined.

(** [NewClient] on the doubles: an injected connection is kept without a
    dial; without one, an address that cannot be reached gives the error
    of the dial and no client. *)
Example NewClient_with_connection_does_not_dial :
  pluginapi.NewClient fake.Dial "localhost:7777" [fake.with_connection 8080] 0%nat
  = (Some (fake.client 8080), None, 0%nat).
Proof. reflexivity. Qed.

Example NewClient_unreachable :
  fst (pluginapi.NewClient fake.Dial "unreachable" [] 0%nat)
  = (None, Some (Go.errors_New "dial failed"))
  /\ snd (pluginapi.NewClient fake.Dial "unreachable" [] 0%nat) = 1%nat.
Proof. split; reflexivity. Qed.
